(** * Discord webhook handler of httpsms: signature check and dispatch

    A shallow embedding of [verifyInteraction] and [Event] from
    [api/pkg/handlers/discord_handler.go], together with the library
    functions they call ([encoding/hex], [crypto/ed25519], [os.Getenv],
    [bytes.Buffer]).  Go [string] is [string], [[]byte] is [list byte],
    [map[string]T] is [gmap string T].  A handler run is a value of the
    small monad [M]: the list of effects it performed (log lines and calls
    that leave the package) and either the returned value or the panic that
    ended it. *)

From Stdlib Require Import ZArith NArith List String Ascii Strings.Byte Bool Lia.
From Stdlib Require Import Floats.SpecFloat.
From stdpp Require Import base option list strings gmap pretty.
Import ListNotations.

(** ** Bytes and strings *)

Abbreviation bytes := (list byte).

(** [[]byte(s)]: the bytes of a Go string. *)
Definition bytes_of_string (s : string) : bytes := list_byte_of_string s.

(** [string(b)]: the Go string holding the bytes [b]. *)
Definition string_of_bytes (b : bytes) : string := string_of_list_byte b.

(** A [byte] value from a number, wrapping around at 256 like Go's [uint8]. *)
Definition byte_wrap (n : N) : byte :=
  match Byte.of_N (n mod 256) with
  | Some b => b
  | None => x00
  end.

(** [strconv.Itoa] on a length. *)
Definition Itoa (n : nat) : string := pretty n.

(** ** encoding/hex *)

Module hex.

Inductive error :=
| ErrLength                      (* odd length hex string *)
| InvalidByteError (b : byte).   (* invalid byte *)

(** [reverseHexTable]: the value of a hexadecimal digit, in either case;
    every other byte is invalid (Go stores 0xff for those). *)
Definition fromHexChar (c : byte) : option N :=
  let n := Byte.to_N c in
  if (48 <=? n)%N && (n <=? 57)%N then Some (n - 48)%N            (* '0'..'9' *)
  else if (97 <=? n)%N && (n <=? 102)%N then Some (n - 97 + 10)%N (* 'a'..'f' *)
  else if (65 <=? n)%N && (n <=? 70)%N then Some (n - 65 + 10)%N  (* 'A'..'F' *)
  else None.

(** [Decode]: two digits make one byte; the loop stops at the first
    invalid digit and reports it, a dangling last digit is checked before
    the odd length is reported.  The bytes decoded so far are returned
    with the error, as [dst[:n]]. *)
Fixpoint Decode (src : bytes) : bytes * option error :=
  match src with
  | [] => ([], None)
  | [p] =>
      match fromHexChar p with
      | None => ([], Some (InvalidByteError p))
      | Some _ => ([], Some ErrLength)
      end
  | p :: q :: rest =>
      match fromHexChar p with
      | None => ([], Some (InvalidByteError p))
      | Some a =>
          match fromHexChar q with
          | None => ([], Some (InvalidByteError q))
          | Some b =>
              let '(dst, err) := Decode rest in
              (byte_wrap (N.lor (N.shiftl a 4) b) :: dst, err)
          end
      end
  end.

(** [DecodeString(s)] *)
Definition DecodeString (s : string) : bytes * option error :=
  Decode (bytes_of_string s).

(** [hextable = "0123456789abcdef"] *)
Definition hexdigit (n : N) : byte :=
  if (n <? 10)%N then byte_wrap (48 + n) else byte_wrap (97 + (n - 10)).

(** [Encode] / [EncodeToString]: two lower-case digits per byte. *)
Fixpoint Encode (src : bytes) : bytes :=
  match src with
  | [] => []
  | v :: rest =>
      hexdigit (N.shiftr (Byte.to_N v) 4)
        :: hexdigit (N.land (Byte.to_N v) 15) :: Encode rest
  end.

Definition EncodeToString (src : bytes) : string :=
  string_of_bytes (Encode src).

End hex.

(** ** Values, errors and effects *)

(** A Go [any] (interface value) as it occurs in this handler: what
    [encoding/json] stores into a [map[string]any] ([nil], [bool],
    [float64], [string], [[]any], [map[string]any]) and what the handler
    puts into a [fiber.Map] (also [int] and [[]fiber.Map]). *)
#[warnings="-register-all"] Inductive any :=
| Nil
| Bool (b : bool)
| Int (n : Z)
| Float64 (f : spec_float)
| Str (s : string)
| Slice (l : list any)
| Map (m : gmap string any).

(** The dynamic type of an interface value, as the runtime prints it. *)
Definition type_name (v : any) : string :=
  match v with
  | Nil => "nil"
  | Bool _ => "bool"
  | Int _ => "int"
  | Float64 _ => "float64"
  | Str _ => "string"
  | Slice _ => "[]interface {}"
  | Map _ => "map[string]interface {}"
  end.

(** Go [error] values met in the handler.  [NewError] and [Propagate] hold
    the format string they are called with: stacktrace formats it once
    more, so it is the text of the error only when it has no verb in it. *)
Inductive error :=
| HexError (e : hex.error)                (* from encoding/hex *)
| JsonError (msg : string)                (* from encoding/json *)
| NewError (msg : string)                 (* stacktrace.NewError *)
| Propagate (cause : error) (msg : string). (* stacktrace.Propagate *)

(** What a run does besides returning: lines written to the logger and
    calls into [crypto/ed25519] and [encoding/json]. *)
Inductive event :=
| LogInfo (msg : string)
| LogError (err : error)
| Call_ed25519_Verify (publicKey message sig : bytes)
| Call_json_Unmarshal (data : bytes).

Inductive outcome (A : Type) :=
| Returned (a : A)
| Panicked (msg : string).
Arguments Returned {A} a.
Arguments Panicked {A} msg.

Record M (A : Type) := Run { effects : list event; result : outcome A }.
Arguments Run {A} effects result.
Arguments effects {A} _.
Arguments result {A} _.

#[export] Instance M_ret : MRet M := λ A a, Run [] (Returned a).

#[export] Instance M_bind : MBind M := λ A B f m,
  match result m with
  | Returned a => Run (effects m ++ effects (f a)) (result (f a))
  | Panicked msg => Run (effects m) (Panicked msg)
  end.

Definition emit (e : event) : M unit := Run [e] (Returned tt).
Definition panic {A} (msg : string) : M A := Run [] (Panicked msg).

(** [ctxLogger.Info] and [ctxLogger.Error] *)
Definition Info (msg : string) : M unit := emit (LogInfo msg).
Definition Error (err : error) : M unit := emit (LogError err).

Definition is_verify_call (e : event) : bool :=
  match e with Call_ed25519_Verify _ _ _ => true | _ => false end.

Definition is_unmarshal_call (e : event) : bool :=
  match e with Call_json_Unmarshal _ => true | _ => false end.

(** ** The environment, the request and the buffer *)

Module os.
(** [os.Getenv]: the value of the variable, empty when it is unset. *)
Definition Getenv (env : gmap string string) (key : string) : string :=
  default EmptyString (env !! key).
End os.

Module fiber.
(** The part of [*fiber.Ctx] the handler reads: the request headers and
    the body as [c.Body()] returns it, which is the body as received
    unless the request has a [Content-Encoding]. *)
Record Ctx := { headers : gmap string string; body : bytes }.

(** [c.Get(key)]: the header's value, empty when the header is missing. *)
Definition Get (c : Ctx) (key : string) : string :=
  default EmptyString (headers c !! key).

(** [c.Body()] *)
Definition Body (c : Ctx) : bytes := body c.
End fiber.

Module Buffer.
(** [bytes.Buffer]: the zero value is empty, writes append. *)
Definition t := bytes.
Definition empty : t := [].
Definition WriteString (b : t) (s : string) : t := b ++ bytes_of_string s.
Definition Write (b : t) (p : bytes) : t := b ++ p.
Definition Bytes (b : t) : bytes := b.
End Buffer.

(** ** crypto/ed25519 *)

Module ed25519.
Definition PublicKeySize : nat := 32.
Definition SignatureSize : nat := 64.

Section Verify.
(** The Ed25519 verification equation on a 32-byte key and a 64-byte
    signature (decode the point, hash, compare): the part of [Verify]
    that follows its two length checks. *)
Variable equation : bytes → bytes → bytes → bool.

(** What [Verify] computes: it panics when the key is not
    [PublicKeySize] bytes long, and reports [false] for a signature
    that is not [SignatureSize] bytes long. *)
Definition verify (publicKey message sig : bytes) : outcome bool :=
  if decide (length publicKey ≠ PublicKeySize) then
    Panicked ("ed25519: bad public key length: " +:+ Itoa (length publicKey))
  else if decide (length sig ≠ SignatureSize) then Returned false
  else Returned (equation publicKey message sig).

(** A call of [Verify], recorded among the effects of the run. *)
Definition Verify (publicKey message sig : bytes) : M bool :=
  Run [Call_ed25519_Verify publicKey message sig]
      (verify publicKey message sig).
End Verify.
End ed25519.

(** ** float64 *)

(** The [float64] nearest to an integer constant. *)
Definition float64_of_Z (z : Z) : spec_float := binary_normalize 53 1024 z 0 false.

(** [==] on [float64] *)
Definition float64_eqb (x y : spec_float) : bool := SFeqb x y.

(** ** Responses *)

(** Modelled from the spec: [responseUnauthorized] and [responseBadRequest]
    are methods of the embedded [handler], defined in another file of the
    package.  The spec gives them as a generic unauthorized status without
    further content, and a generic bad-request status that surfaces the
    error it is given.  [JSON v] is [c.JSON(v)]: the value [v] serialised
    as the response body. *)
Inductive response :=
| Unauthorized
| BadRequest (err : error)
| JSON (v : any).

Definition responseUnauthorized (c : fiber.Ctx) : M response := mret Unauthorized.
Definition responseBadRequest (c : fiber.Ctx) (err : error) : M response :=
  mret (BadRequest err).
Definition c_JSON (c : fiber.Ctx) (v : any) : M response := mret (JSON v).

(** [m[key]] on a [map[string]any]: [nil] for a missing key (and for every
    key of a nil map). *)
Definition index (m : gmap string any) (key : string) : any :=
  default Nil (m !! key).

(** [v.(float64)]: the type assertion without the comma-ok form panics on
    every value that is not a [float64]. *)
Definition assert_float64 (v : any) : M spec_float :=
  match v with
  | Float64 f => mret f
  | _ =>
      panic ("interface conversion: interface {} is " +:+ type_name v
             +:+ ", not float64")
  end.

(** The reply of [Event] to an interaction of type 2. *)
Definition command_reply : any :=
  Map {[
    "type" := Int 4;
    "data" := Map {[
      "content" := Str "*⚠ could not send SMS message*";
      "embeds" := Slice [
        Map {[ "title" := Str "The to field is not a valid phone number";
               "color" := Int 14681092 ]};
        Map {[ "title" := Str "The from field is not a valid phone number";
               "color" := Int 14681092 ]};
        Map {[ "fields" := Slice [
          Map {[ "name" := Str "From:"; "value" := Str "+37259139660";
                 "inline" := Bool true ]};
          Map {[ "name" := Str "To:"; "value" := Str "+37259139661";
                 "inline" := Bool true ]};
          Map {[ "name" := Str "Content:"; "value" := Str "Hello World" ]}
        ] ]}
      ]
    ]}
  ]}.

(** ** The handler *)

Section Handler.

(** The collaborators injected into the handler; [Event] and
    [verifyInteraction] use none of their operations besides logging. *)
Variables Logger Tracer Validator Service : Type.
Variable WithService : Logger → string → Logger.

(** The Ed25519 verification equation (see [ed25519.verify]). *)
Variable equation : bytes → bytes → bytes → bool.

(** What [json.Unmarshal(data, &payload)] leaves in a nil
    [payload map[string]any] and the error it returns. *)
Variable json_decode : bytes → gmap string any * option error.

(** [fmt]'s rendering of a value under the verb [%d]. *)
Variable fmt_d : any → string.

Record DiscordHandler := {
  logger : Logger;
  tracer : Tracer;
  validator : Validator;
  service : Service
}.

Definition NewDiscordHandler (logger : Logger) (tracer : Tracer)
    (validator : Validator) (service : Service) : DiscordHandler :=
  {| logger := WithService logger "*handlers.DiscordHandler";
     tracer := tracer;
     validator := validator;
     service := service |}.

(** A call of [json.Unmarshal], recorded among the effects of the run. *)
Definition json_Unmarshal (data : bytes) : M (gmap string any * option error) :=
  Run [Call_json_Unmarshal data] (Returned (json_decode data)).

Definition verifyInteraction (h : DiscordHandler) (env : gmap string string)
    (c : fiber.Ctx) : M bool :=
  let msg := Buffer.empty in
  let signature := fiber.Get c "X-Signature-Ed25519" in
  if decide (signature = EmptyString) then
    Info "X-Signature-Ed25519 header is empty";; mret false
  else
  let '(sig, err) := hex.DecodeString signature in
  if decide (err ≠ None) then
    Info ("cannot decode X-Signature-Ed25519 [" +:+ signature +:+ "]");;
    mret false
  else
  if decide (length sig ≠ ed25519.SignatureSize) then
    Info ("invalid signature size [" +:+ Itoa (length sig) +:+ "]");;
    mret false
  else
  let timestamp := fiber.Get c "X-Signature-Timestamp" in
  if decide (timestamp = EmptyString) then
    Info "X-Signature-Timestamp header is empty";; mret false
  else
  let msg := Buffer.WriteString msg timestamp in
  let msg := Buffer.Write msg (fiber.Body c) in
  let '(key, err) := hex.DecodeString (os.Getenv env "DISCORD_PUBLIC_KEY") in
  match err with
  | Some e =>
      Error (Propagate (HexError e)
               ("cannot decode DISCORD_PUBLIC_KEY env variable ["
                +:+ os.Getenv env "DISCORD_PUBLIC_KEY" +:+ "]"));;
      mret false
  | None => ed25519.Verify equation key (Buffer.Bytes msg) sig
  end.

Definition Event (h : DiscordHandler) (env : gmap string string)
    (c : fiber.Ctx) : M response :=
  verified ← verifyInteraction h env c;
  if negb verified then responseUnauthorized c
  else
  '(payload, err) ← json_Unmarshal (fiber.Body c);
  match err with
  | Some err =>
      let msg := "cannot unmarshall [" +:+ string_of_bytes (fiber.Body c)
                 +:+ "] to [map[string]interface {}]" in
      Error (Propagate err msg);;
      responseBadRequest c err
  | None =>
      Info (string_of_bytes (fiber.Body c));;
      t ← assert_float64 (index payload "type");
      if float64_eqb t (float64_of_Z 1) then
        c_JSON c (Map {[ "type" := Int 1 ]})
      else
      t ← assert_float64 (index payload "type");
      if float64_eqb t (float64_of_Z 2) then c_JSON c command_reply
      else
      responseBadRequest c
        (NewError ("unknown type [" +:+ fmt_d (index payload "type") +:+ "]"))
  end.

End Handler.

Arguments logger {_ _ _ _} _.
Arguments tracer {_ _ _ _} _.
Arguments validator {_ _ _ _} _.
Arguments service {_ _ _ _} _.
Arguments NewDiscordHandler {_ _ _ _} WithService _ _ _ _.
Arguments verifyInteraction {_ _ _ _} equation h env c.
Arguments Event {_ _ _ _} equation json_decode fmt_d h env c.

(** The calls of [ed25519.Verify] and of [json.Unmarshal] made by a run. *)
Definition verify_calls {A} (r : M A) : list event :=
  List.filter is_verify_call (effects r).

Definition unmarshal_calls {A} (r : M A) : list event :=
  List.filter is_unmarshal_call (effects r).

(** The request [c] with another body. *)
Definition with_body (c : fiber.Ctx) (b : bytes) : fiber.Ctx :=
  {| fiber.headers := fiber.headers c; fiber.body := b |}.

(** The two headers read by [verifyInteraction], and the message it
    assembles in its buffer. *)
Definition signature_header (c : fiber.Ctx) : string :=
  fiber.Get c "X-Signature-Ed25519".

Definition timestamp_header (c : fiber.Ctx) : string :=
  fiber.Get c "X-Signature-Timestamp".

Definition configured_key (env : gmap string string) : string :=
  os.Getenv env "DISCORD_PUBLIC_KEY".

(** Reading a reply: the member [key] of an object, the elements of an
    array, and the value of the labelled field [name] among the embeds. *)
Definition member (v : any) (key : string) : any :=
  match v with
  | Map m => index m key
  | _ => Nil
  end.

Definition elements (v : any) : list any :=
  match v with
  | Slice l => l
  | _ => []
  end.

Definition is_named (name : string) (field : any) : bool :=
  match member field "name" with
  | Str s => String.eqb s name
  | _ => false
  end.

Definition field_value (reply : any) (name : string) : option any :=
  let embeds := elements (member (member reply "data") "embeds") in
  let fields := flat_map (λ e, elements (member e "fields")) embeds in
  match List.find (is_named name) fields with
  | Some field => Some (member field "value")
  | None => None
  end.

(** ** Sample collaborators and requests

    Concrete stand-ins for the parameters of the handler, to run it on
    concrete requests: a keyed checksum in place of the Ed25519 equation, a
    decoder for flat JSON objects in place of [encoding/json], and requests
    signed with the checksum. *)

Module Sample.

Fixpoint bytes_eqb (a b : bytes) : bool :=
  match a, b with
  | [], [] => true
  | x :: a', y :: b' => Byte.eqb x y && bytes_eqb a' b'
  | _, _ => false
  end.

Definition checksum (l : bytes) : byte :=
  byte_wrap (fold_right (λ b acc, (Byte.to_N b + acc)%N) 0%N l).

(** The tag of a message under a key: 64 copies of the checksum of both. *)
Definition sign (key message : bytes) : bytes :=
  repeat (checksum (key ++ message)) ed25519.SignatureSize.

Definition equation (key message sig : bytes) : bool :=
  bytes_eqb sig (sign key message).

Definition key : bytes := repeat "k"%byte ed25519.PublicKeySize.

Definition env : gmap string string :=
  {[ "DISCORD_PUBLIC_KEY" := hex.EncodeToString key ]}.

(** A request whose signature header is the tag of timestamp and body. *)
Definition signed (timestamp : string) (body : bytes) : fiber.Ctx :=
  {| fiber.headers :=
       {[ "X-Signature-Ed25519" :=
            hex.EncodeToString
              (sign key (bytes_of_string timestamp ++ body));
          "X-Signature-Timestamp" := timestamp ]};
     fiber.body := body |}.

(** *** A decoder for flat JSON objects

    Objects without white space whose values are unescaped ASCII strings,
    non-negative integers of at most 15 digits, [true], [false] or [null];
    everything else is reported as an error. *)

Definition is_digit (b : byte) : bool :=
  let n := Byte.to_N b in (48 <=? n)%N && (n <=? 57)%N.

Definition is_plain (b : byte) : bool :=
  let n := Byte.to_N b in
  (32 <=? n)%N && (n <=? 126)%N && negb (n =? 34)%N && negb (n =? 92)%N.

(** The characters up to the closing quote, and what follows it. *)
Fixpoint read_string (src : bytes) : option (bytes * bytes) :=
  match src with
  | [] => None
  | b :: rest =>
      if Byte.eqb b x22 then Some ([], rest)
      else if is_plain b then
        match read_string rest with
        | Some (s, r) => Some (b :: s, r)
        | None => None
        end
      else None
  end.

Fixpoint read_digits (src : bytes) : bytes * bytes :=
  match src with
  | b :: rest =>
      if is_digit b then
        let '(ds, r) := read_digits rest in (b :: ds, r)
      else ([], src)
  | [] => ([], [])
  end.

Definition number_of_digits (ds : bytes) : Z :=
  fold_left (λ acc b, acc * 10 + (Z.of_N (Byte.to_N b) - 48))%Z ds 0%Z.

Definition read_value (src : bytes) : option (any * bytes) :=
  match src with
  | "t"%byte :: "r"%byte :: "u"%byte :: "e"%byte :: r => Some (Bool true, r)
  | "f"%byte :: "a"%byte :: "l"%byte :: "s"%byte :: "e"%byte :: r =>
      Some (Bool false, r)
  | "n"%byte :: "u"%byte :: "l"%byte :: "l"%byte :: r => Some (Nil, r)
  | b :: rest =>
      if Byte.eqb b x22 then
        match read_string rest with
        | Some (s, r) => Some (Str (string_of_bytes s), r)
        | None => None
        end
      else
        let '(ds, r) := read_digits src in
        match ds with
        | [] => None
        | d :: ds' =>
            if (Byte.eqb d "0"%byte && negb (Nat.eqb (length ds') 0))
               || (15 <? length ds)%nat
            then None
            else Some (Float64 (float64_of_Z (number_of_digits ds)), r)
        end
  | [] => None
  end.

(** The members after the opening brace or a comma, up to the closing
    brace; a repeated key keeps its last value. *)
Fixpoint read_members (fuel : nat) (src : bytes) (m : gmap string any)
    : option (gmap string any) :=
  match fuel, src with
  | S fuel', q :: rest =>
      if Byte.eqb q x22 then
        match read_string rest with
        | Some (k, ":"%byte :: r) =>
            match read_value r with
            | Some (v, [ "}"%byte ]) => Some (<[string_of_bytes k := v]> m)
            | Some (v, ","%byte :: r') =>
                read_members fuel' r' (<[string_of_bytes k := v]> m)
            | _ => None
            end
        | _ => None
        end
      else None
  | _, _ => None
  end.

Definition json_decode (data : bytes) : gmap string any * option error :=
  match data with
  | [ "{"%byte; "}"%byte ] => (∅, None)
  | "{"%byte :: rest =>
      match read_members (length rest) rest ∅ with
      | Some m => (m, None)
      | None => (∅, Some (JsonError "cannot decode the object"))
      end
  | _ => (∅, Some (JsonError "cannot decode into a map"))
  end.

Definition fmt_d (v : any) : string := "%!d(" +:+ type_name v +:+ ")".

(** A command handler as the injected service: it reports whether the
    message of an interaction was sent. *)
Inductive command_outcome := Sent | Failed (reason : string).

Definition Service : Type := gmap string any → command_outcome.

Definition handler (s : Service) : DiscordHandler unit unit unit Service :=
  NewDiscordHandler (λ l _, l) tt tt tt s.

Definition sending : Service := λ _, Sent.
Definition failing : Service := λ _, Failed "invalid phone number".

(** Request bodies. *)
Definition q : string := String (Ascii.ascii_of_nat 34) EmptyString.

Definition body_handshake : bytes := bytes_of_string ("{" +:+ q +:+ "type" +:+ q +:+ ":1}").
Definition body_unknown : bytes := bytes_of_string ("{" +:+ q +:+ "type" +:+ q +:+ ":99}").
Definition body_no_type : bytes := bytes_of_string "{}".
Definition body_string_type : bytes :=
  bytes_of_string ("{" +:+ q +:+ "type" +:+ q +:+ ":" +:+ q +:+ "1" +:+ q +:+ "}").
Definition body_command (from to content : string) : bytes :=
  bytes_of_string
    ("{" +:+ q +:+ "type" +:+ q +:+ ":2,"
       +:+ q +:+ "from" +:+ q +:+ ":" +:+ q +:+ from +:+ q +:+ ","
       +:+ q +:+ "to" +:+ q +:+ ":" +:+ q +:+ to +:+ q +:+ ","
       +:+ q +:+ "content" +:+ q +:+ ":" +:+ q +:+ content +:+ q +:+ "}").

Definition timestamp : string := "1700000000".

Definition handshake_request : fiber.Ctx := signed timestamp body_handshake.
Definition unknown_request : fiber.Ctx := signed timestamp body_unknown.
Definition no_type_request : fiber.Ctx := signed timestamp body_no_type.
Definition string_type_request : fiber.Ctx := signed timestamp body_string_type.
Definition command_request : fiber.Ctx :=
  signed timestamp (body_command "+15550001111" "+15550002222" "ping").
Definition other_command_request : fiber.Ctx :=
  signed timestamp (body_command "+15550003333" "+15550004444" "pong").

(** What the decoder makes of the body of [command_request]. *)
Definition command_payload : gmap string any :=
  fst (json_decode (fiber.Body command_request)).

(** The handshake request with its body replaced after signing. *)
Definition tampered_request : fiber.Ctx :=
  with_body handshake_request (bytes_of_string "{}").

(** Requests that fail one header check each. *)
Definition no_signature_request : fiber.Ctx :=
  {| fiber.headers := {[ "X-Signature-Timestamp" := timestamp ]};
     fiber.body := body_handshake |}.
Definition short_signature_request : fiber.Ctx :=
  {| fiber.headers := {[ "X-Signature-Ed25519" := "abcd";
                         "X-Signature-Timestamp" := timestamp ]};
     fiber.body := body_handshake |}.

(** Environments: the key unset, and a key that is not hexadecimal. *)
Definition env_unset : gmap string string := ∅.
Definition env_invalid_key : gmap string string :=
  {[ "DISCORD_PUBLIC_KEY" := "zz" ]}.

(** The handler run with the sample collaborators. *)
Definition verify (env : gmap string string) (c : fiber.Ctx) : M bool :=
  verifyInteraction equation (handler sending) env c.

Definition event (s : Service) (env : gmap string string) (c : fiber.Ctx)
    : M response :=
  Event equation json_decode fmt_d (handler s) env c.

End Sample.


(** * The handlers of the discord integrations

    [Index], [Delete], [Update] and [Store] of the same file.  They parse
    the request, validate it, call the service and answer through the
    response helpers of the embedded [handler].  The request types, the
    validator, the service and the helpers live in other packages: they
    are the fields of [Deps], and a run records the calls made to the
    logger, to the validator and to the service, in order. *)

(** A run that records events of type [E]. *)
Record W (E A : Type) := Ran { calls : list E; value : outcome A }.
Arguments Ran {E A} calls value.
Arguments calls {E A} _.
Arguments value {E A} _.

#[export] Instance W_ret {E} : MRet (W E) := λ A a, Ran [] (Returned a).

#[export] Instance W_bind {E} : MBind (W E) := λ A B f m,
  match value m with
  | Returned a => Ran (calls m ++ calls (f a)) (value (f a))
  | Panicked msg => Ran (calls m) (Panicked msg)
  end.

Module integrations.

(** [url.Values], the validation errors by field. *)
Abbreviation Values := (gmap string (list string)).

(** [repositories.IndexParams] *)
Record IndexParams := { Skip : Z; Query : string; Limit : Z }.

Section Handlers.

(** [entities.UserID], [entities.AuthUser], [entities.Discord],
    [uuid.UUID]; the request and parameter types of [requests] and
    [services]; what the middlewares left in the context. *)
Context {UserID AuthUser Discord UUID : Type}.
Context {IndexRequest UpdateFields StoreRequest : Type}.
Context {UpdateParams StoreParams Locals : Type}.

(** [requests.DiscordUpdate]: the identifier and the other fields. *)
Record UpdateRequest := { DiscordID : string; fields : UpdateFields }.

(** The part of [*fiber.Ctx] these handlers read. *)
Record Ctx := {
  request : fiber.Ctx;
  originalURL : string;
  params : gmap string string;
  locals : Locals
}.

(** [c.Params(key)]: empty when the route has no such parameter. *)
Definition Params (c : Ctx) (key : string) : string :=
  default EmptyString (params c !! key).

Definition Body (c : Ctx) : bytes := fiber.Body (request c).
Definition OriginalURL (c : Ctx) : string := originalURL c.

Inductive call :=
| Warn (err : error)                                   (* ctxLogger.Warn *)
| LogError (err : error)                               (* ctxLogger.Error *)
| validator_ValidateIndex (r : IndexRequest)
| validator_ValidateUUID (id name : string)
| validator_ValidateUpdate (r : UpdateRequest)
| validator_ValidateStore (r : StoreRequest)
| service_Index (user : UserID) (p : IndexParams)
| service_Delete (user : UserID) (id : UUID)
| service_Update (p : UpdateParams)
| service_Store (p : StoreParams).

Definition is_service_call (e : call) : bool :=
  match e with
  | service_Index _ _ | service_Delete _ _ | service_Update _
  | service_Store _ => true
  | _ => false
  end.

Definition is_write_call (e : call) : bool :=
  match e with
  | service_Delete _ _ | service_Update _ | service_Store _ => true
  | _ => false
  end.

(** The [data] argument of a response helper. *)
Inductive data :=
| NoData                        (* nil *)
| One (d : Discord)
| Many (l : list Discord).

(** A response, as the helper of the embedded [handler] that produced it
    and the arguments it was given. *)
Inductive response :=
| BadRequest (err : error)
| UnprocessableEntity (errors : Values) (message : string)
| InternalServerError
| PaymentRequired (message : string)
| Created (message : string) (d : data)
| OK (message : string) (d : data).

(** What the handlers use from outside the file.  A parser gives the
    request it filled and its error; [Sanitize] gives the receiver as the
    call leaves it and the value it returns; a validator gives its
    errors; a service call gives its result and its error; [uuid_Parse]
    gives the identifier or the text of its error. *)
Record Deps := {
  QueryParser : Ctx → IndexRequest * option error;
  BodyParser_Update : Ctx → UpdateRequest * option error;
  BodyParser_Store : Ctx → StoreRequest * option error;
  userIDFomContext : Ctx → UserID;
  userFromContext : Ctx → AuthUser;
  pluralize : string → nat → string;
  Index_Sanitize : IndexRequest → IndexRequest * IndexRequest;
  Update_Sanitize : UpdateRequest → UpdateRequest * UpdateRequest;
  Store_Sanitize : StoreRequest → StoreRequest * StoreRequest;
  ToIndexParams : IndexRequest → IndexParams;
  ToUpdateParams : UpdateRequest → AuthUser → UpdateParams;
  ToStoreParams : StoreRequest → AuthUser → StoreParams;
  ValidateIndex : IndexRequest → Values;
  ValidateUUID : string → string → Values;
  ValidateUpdate : UpdateRequest → Values;
  ValidateStore : StoreRequest → Values;
  Index_result : UserID → IndexParams → list Discord * option error;
  Delete_result : UserID → UUID → option error;
  Update_result : UpdateParams → Discord * option error;
  Store_result : StoreParams → Discord * option error;
  uuid_Parse : string → UUID + string;
  Sdump : Values → string;                 (* spew.Sdump *)
  fmt_index : IndexRequest → string;       (* %+#v *)
  fmt_update : UpdateRequest → string;     (* %+#v *)
  fmt_store : StoreRequest → string;       (* %+#v *)
  fmt_quoted : string → string;            (* %+#v of a string *)
  fmt_user : UserID → string               (* %s *)
}.

Section Run.
Variable d : Deps.

Definition log_Warn (err : error) : W call unit := Ran [Warn err] (Returned tt).
Definition log_Error (err : error) : W call unit :=
  Ran [LogError err] (Returned tt).

Definition validate_Index (r : IndexRequest) : W call Values :=
  Ran [validator_ValidateIndex r] (Returned (ValidateIndex d r)).
Definition validate_UUID (id name : string) : W call Values :=
  Ran [validator_ValidateUUID id name] (Returned (ValidateUUID d id name)).
Definition validate_Update (r : UpdateRequest) : W call Values :=
  Ran [validator_ValidateUpdate r] (Returned (ValidateUpdate d r)).
Definition validate_Store (r : StoreRequest) : W call Values :=
  Ran [validator_ValidateStore r] (Returned (ValidateStore d r)).

Definition call_Index (user : UserID) (p : IndexParams)
    : W call (list Discord * option error) :=
  Ran [service_Index user p] (Returned (Index_result d user p)).
Definition call_Delete (user : UserID) (id : UUID) : W call (option error) :=
  Ran [service_Delete user id] (Returned (Delete_result d user id)).
Definition call_Update (p : UpdateParams) : W call (Discord * option error) :=
  Ran [service_Update p] (Returned (Update_result d p)).
Definition call_Store (p : StoreParams) : W call (Discord * option error) :=
  Ran [service_Store p] (Returned (Store_result d p)).

(** [uuid.MustParse] *)
Definition uuid_MustParse (s : string) : W call UUID :=
  match uuid_Parse d s with
  | inl id => mret id
  | inr err => Ran [] (Panicked ("uuid: Parse(" +:+ s +:+ "): " +:+ err))
  end.

Definition Index (c : Ctx) : W call response :=
  let '(request, err) := QueryParser d c in
  match err with
  | Some err =>
      let msg := "cannot marshall URL [" +:+ OriginalURL c
                 +:+ "] into requests.DiscordIndex" in
      log_Warn (Propagate err msg);;
      mret (BadRequest err)
  | None =>
      let '(request, sanitized) := Index_Sanitize d request in
      errors ← validate_Index sanitized;
      if decide (size errors ≠ 0) then
        let msg := "validation errors [" +:+ Sdump d errors
                   +:+ "], while fetching discord integrations ["
                   +:+ fmt_index d request +:+ "]" in
        log_Warn (NewError msg);;
        mret (UnprocessableEntity errors
                "validation errors while fetching discord integrations")
      else
      '(discordIntegrations, err) ←
        call_Index (userIDFomContext d c) (ToIndexParams d request);
      match err with
      | Some err =>
          let msg := "cannot get discord integrations with params ["
                     +:+ fmt_index d request +:+ "]" in
          log_Error (Propagate err msg);;
          mret InternalServerError
      | None =>
          mret (OK ("fetched " +:+ Itoa (length discordIntegrations)
                    +:+ " discord "
                    +:+ pluralize d "integration" (length discordIntegrations))
                   (Many discordIntegrations))
      end
  end.

Definition Delete (c : Ctx) : W call response :=
  let discordID := Params c "discordID" in
  errors ← validate_UUID discordID "discordID";
  if decide (size errors ≠ 0) then
    let msg := "validation errors [" +:+ Sdump d errors
               +:+ "], while deleting discord integration with ID ["
               +:+ discordID +:+ "]" in
    log_Warn (NewError msg);;
    mret (UnprocessableEntity errors
            "validation errors while deleting discord integration")
  else
  id ← uuid_MustParse discordID;
  err ← call_Delete (userIDFomContext d c) id;
  match err with
  | Some err =>
      let msg := "cannot delete discord integration with ID ["
                 +:+ fmt_quoted d discordID +:+ "]" in
      log_Error (Propagate err msg);;
      mret InternalServerError
  | None => mret (OK "discord integration deleted successfully" NoData)
  end.

Definition Update (c : Ctx) : W call response :=
  let '(request, err) := BodyParser_Update d c in
  match err with
  | Some err =>
      let msg := "cannot marshall params [" +:+ string_of_bytes (Body c)
                 +:+ "] into [requests.DiscordUpdate]" in
      log_Warn (Propagate err msg);;
      mret (BadRequest err)
  | None =>
      let request :=
        {| DiscordID := Params c "discordID"; fields := fields request |} in
      let '(request, sanitized) := Update_Sanitize d request in
      errors ← validate_Update sanitized;
      if decide (size errors ≠ 0) then
        let msg := "validation errors [" +:+ Sdump d errors
                   +:+ "], while updating user ["
                   +:+ fmt_update d request +:+ "]" in
        log_Warn (NewError msg);;
        mret (UnprocessableEntity errors
                "validation errors while updating discord integration")
      else
      '(user, err) ←
        call_Update (ToUpdateParams d request (userFromContext d c));
      match err with
      | Some err =>
          let msg := "cannot update discord integration with params ["
                     +:+ fmt_update d request +:+ "]" in
          log_Error (Propagate err msg);;
          mret InternalServerError
      | None => mret (OK "discord integration updated successfully" (One user))
      end
  end.

Definition Store (c : Ctx) : W call response :=
  let '(request, err) := BodyParser_Store d c in
  match err with
  | Some err =>
      let msg := "cannot marshall body [" +:+ string_of_bytes (Body c)
                 +:+ "] into [requests.DiscordStore]" in
      log_Warn (Propagate err msg);;
      mret (BadRequest err)
  | None =>
      let '(request, sanitized) := Store_Sanitize d request in
      errors ← validate_Store sanitized;
      if decide (size errors ≠ 0) then
        let msg := "validation errors [" +:+ Sdump d errors
                   +:+ "], while storing discord integration ["
                   +:+ fmt_store d request +:+ "]" in
        log_Warn (NewError msg);;
        mret (UnprocessableEntity errors
                "validation errors while storing discord integration")
      else
      '(discordIntegrations, err) ←
        call_Index (userIDFomContext d c)
          {| Skip := 0; Query := EmptyString; Limit := 1 |};
      match err with
      | Some err =>
          log_Error (Propagate err
            ("cannot index discord integrations for user ["
             +:+ fmt_user d (userIDFomContext d c) +:+ "]"));;
          mret InternalServerError
      | None =>
          if decide (0 < length discordIntegrations) then
            log_Warn (NewError
              ("user with ID [" +:+ fmt_user d (userIDFomContext d c)
               +:+ "] wants to create more than 1 discord integration"));;
            mret (PaymentRequired
              "You can't create more than 1 discord integration contact us to upgrade your account.")
          else
          '(discordIntegration, err) ←
            call_Store (ToStoreParams d request (userFromContext d c));
          match err with
          | Some err =>
              let msg := "cannot store discord integration with params ["
                         +:+ fmt_store d request +:+ "]" in
              log_Error (Propagate err msg);;
              mret InternalServerError
          | None =>
              mret (Created "discord integration created successfully"
                      (One discordIntegration))
          end
      end
  end.

End Run.
End Handlers.

End integrations.

(** ** Sample collaborators for the integrations handlers

    A validator that accepts identifiers of 36 characters and names that
    are not empty, and a service over a table of integration names by
    user, which can be made to fail. *)

Module SampleIntegrations.

Import integrations.

Definition ctx (user : string) (id : string) (body : string) : @Ctx string :=
  {| request := {| fiber.headers := ∅; fiber.body := bytes_of_string body |};
     originalURL := "/v1/discord-integrations";
     params := if decide (id = EmptyString) then ∅ else {[ "discordID" := id ]};
     locals := user |}.

Definition parse_error : error := JsonError "unexpected end of JSON input".

Definition body_error (c : @Ctx string) : option error :=
  if decide (Body c = []) then Some parse_error else None.

Definition valid_uuid (id name : string) : Values :=
  if decide (String.length id = 36) then ∅
  else {[ name := ["The " +:+ name +:+ " field must be a valid UUID"] ]}.

Definition valid_name (name : string) : Values :=
  if decide (name = EmptyString) then {[ "name" := ["The name field is required"] ]}
  else ∅.

Definition service_error : error := NewError "database is down".

(** The collaborators over the table [db]; with [down] every service call
    fails. *)
Definition deps (db : gmap string (list string)) (down : bool)
    : @Deps string string string string string string string
            (string * UpdateRequest) (string * string) string :=
  {| QueryParser := λ c, (OriginalURL c, None);
     BodyParser_Update := λ c,
       ({| DiscordID := "id-from-the-body";
           fields := string_of_bytes (Body c) |}, body_error c);
     BodyParser_Store := λ c, (string_of_bytes (Body c), body_error c);
     userIDFomContext := λ c, locals c;
     userFromContext := λ c, locals c;
     pluralize := λ v n, if decide (n = 1) then v else v +:+ "s";
     Index_Sanitize := λ r, (r, r);
     Update_Sanitize := λ r, (r, r);
     Store_Sanitize := λ r, (r, r);
     ToIndexParams := λ r, {| Skip := 0; Query := r; Limit := 20 |};
     ToUpdateParams := λ r u, (u, r);
     ToStoreParams := λ r u, (u, r);
     ValidateIndex := λ _, ∅;
     ValidateUUID := valid_uuid;
     ValidateUpdate := λ r, valid_uuid (DiscordID r) "discordID";
     ValidateStore := valid_name;
     Index_result := λ u p,
       if down then ([], Some service_error)
       else (take (Z.to_nat (Limit p)) (default [] (db !! u)), None);
     Delete_result := λ u id, if down then Some service_error else None;
     Update_result := λ p,
       (fields (snd p), if down then Some service_error else None);
     Store_result := λ p, (snd p, if down then Some service_error else None);
     uuid_Parse := λ s,
       if decide (String.length s = 36) then inl s
       else inr ("invalid UUID length: " +:+ Itoa (String.length s));
     Sdump := λ _, "(url.Values)";
     fmt_index := λ r, r;
     fmt_update := λ r, DiscordID r;
     fmt_store := λ r, r;
     fmt_quoted := λ s, s;
     fmt_user := λ u, u |}.

(** The same collaborators with a validator that accepts every
    identifier. *)
Definition lax (db : gmap string (list string))
    : @Deps string string string string string string string
            (string * UpdateRequest) (string * string) string :=
  let d := deps db false in
  {| QueryParser := QueryParser d;
     BodyParser_Update := BodyParser_Update d;
     BodyParser_Store := BodyParser_Store d;
     userIDFomContext := userIDFomContext d;
     userFromContext := userFromContext d;
     pluralize := pluralize d;
     Index_Sanitize := Index_Sanitize d;
     Update_Sanitize := Update_Sanitize d;
     Store_Sanitize := Store_Sanitize d;
     ToIndexParams := ToIndexParams d;
     ToUpdateParams := ToUpdateParams d;
     ToStoreParams := ToStoreParams d;
     ValidateIndex := ValidateIndex d;
     ValidateUUID := λ _ _, ∅;
     ValidateUpdate := ValidateUpdate d;
     ValidateStore := ValidateStore d;
     Index_result := Index_result d;
     Delete_result := Delete_result d;
     Update_result := Update_result d;
     Store_result := Store_result d;
     uuid_Parse := uuid_Parse d;
     Sdump := Sdump d;
     fmt_index := fmt_index d;
     fmt_update := fmt_update d;
     fmt_store := fmt_store d;
     fmt_quoted := fmt_quoted d;
     fmt_user := fmt_user d |}.

Definition id1 : string := "32343a19-da5e-4b1b-a767-3298a73703ca".

(** One user with an integration, and no integrations at all. *)
Definition db1 : gmap string (list string) := {[ "alice" := ["alerts"] ]}.
Definition db0 : gmap string (list string) := ∅.

End SampleIntegrations.

(** * The request as received

    [c.Body()] is not always the body as it came over the wire: fiber
    decodes a body sent with a [Content-Encoding] header (gzip, deflate,
    brotli) before handing it over.  A [fasthttp.Request] holds the headers
    and the body as received; [received] builds from it the context the
    handler sees. *)

Module fasthttp.
Record Request := { header : gmap string string; body_raw : bytes }.
End fasthttp.

(** The value of the [Content-Encoding] header, empty when it is missing. *)
Definition content_encoding (r : fasthttp.Request) : string :=
  default EmptyString (fasthttp.header r !! "Content-Encoding").

Section Received.
(** What [c.Body()] returns for the value of the [Content-Encoding] header
    and the body as received. *)
Variable content_decoding : string → bytes → bytes.

Definition received (r : fasthttp.Request) : fiber.Ctx :=
  {| fiber.headers := fasthttp.header r;
     fiber.body := content_decoding (content_encoding r) (fasthttp.body_raw r) |}.
End Received.

(** ** A sample of an encoded request

    Gzip for streams of one stored block, which is enough to write down a
    gzip body by hand: the ten bytes of the header, the block (final, not
    compressed, its length and the complement of its length), and the
    CRC-32 and length of the data. *)

Module SampleEncoded.

Definition crc32_step (c : N) : N :=
  if N.testbit c 0 then N.lxor (N.shiftr c 1) 0xEDB88320%N else N.shiftr c 1.

Definition crc32_byte (c : N) (b : byte) : N :=
  Nat.iter 8 crc32_step (N.lxor c (Byte.to_N b)).

Definition crc32 (data : bytes) : N :=
  N.lxor (fold_left crc32_byte data 0xFFFFFFFF%N) 0xFFFFFFFF%N.

(** The [n] low bytes of a number, lowest first. *)
Fixpoint little_endian (n : nat) (x : N) : bytes :=
  match n with
  | O => []
  | S n' => byte_wrap x :: little_endian n' (N.shiftr x 8)
  end.

Definition gzip_header : bytes :=
  [x1f; x8b; x08; x00; x00; x00; x00; x00; x00; xff].


(** The data of a stream written by [gzip_stored], when its lengths and
    its checksum agree. *)
Definition gunzip_stored (stream : bytes) : option bytes :=
  if Sample.bytes_eqb (take 10 stream) gzip_header then
    match drop 10 stream with
    | b :: l0 :: l1 :: n0 :: n1 :: rest =>
        let len := (Byte.to_N l0 + 256 * Byte.to_N l1)%N in
        let data := take (N.to_nat len) rest in
        if Byte.eqb b x01
           && Sample.bytes_eqb [n0; n1] (little_endian 2 (N.lxor len 0xFFFF%N))
           && Sample.bytes_eqb (drop (N.to_nat len) rest)
                (little_endian 4 (crc32 data) ++ little_endian 4 len)
        then Some data
        else None
    | _ => None
    end
  else None.

(** [c.Body()] on the sample: a gzip body is handed over decoded, the text
    of the error when it cannot be decoded, and every other body as
    received. *)
Definition content_decoding (encoding : string) (raw : bytes) : bytes :=
  if decide (encoding = "gzip") then
    match gunzip_stored raw with
    | Some data => data
    | None => bytes_of_string "gzip: invalid header"
    end
  else raw.



(** The same request sent as it is. *)
Definition plain_request : fasthttp.Request :=
  {| fasthttp.header := fiber.headers Sample.handshake_request;
     fasthttp.body_raw := Sample.body_handshake |}.

End SampleEncoded.

(** * Properties *)

(** ** encoding/hex *)

Example hex_decode_mixed_case :
  hex.DecodeString "0aFf10" = ([x0a; xff; x10], None).
Proof. reflexivity. Qed.

Example hex_decode_odd :
  hex.DecodeString "0af" = ([x0a], Some hex.ErrLength).
Proof. reflexivity. Qed.

Example hex_decode_invalid :
  hex.DecodeString "0azz" = ([x0a], Some (hex.InvalidByteError "z"%byte)).
Proof. reflexivity. Qed.

Lemma hex_decode_encode_byte (v : byte) (rest : bytes) :
  hex.Decode (hex.Encode (v :: rest)) =
    let '(dst, err) := hex.Decode (hex.Encode rest) in (v :: dst, err).
Proof. destruct v; reflexivity. Qed.

(** Decoding what [Encode] wrote gives the bytes back, without error. *)
Lemma hex_Decode_Encode (src : bytes) :
  hex.Decode (hex.Encode src) = (src, None).
Proof.
  induction src as [|v rest IH]; [reflexivity|].
  rewrite hex_decode_encode_byte, IH. reflexivity.
Qed.

Lemma hex_DecodeString_EncodeToString (src : bytes) :
  hex.DecodeString (hex.EncodeToString src) = (src, None).
Proof.
  unfold hex.DecodeString, hex.EncodeToString, bytes_of_string, string_of_bytes.
  rewrite list_byte_of_string_of_list_byte. apply hex_Decode_Encode.
Qed.

(** ** The monad *)

Lemma bind_Returned {A B} (m : M A) (f : A → M B) (a : A) :
  result m = Returned a →
  m ≫= f = Run (effects m ++ effects (f a)) (result (f a)).
Proof. intros E. unfold mbind, M_bind. rewrite E. reflexivity. Qed.

Lemma bind_Panicked {A B} (m : M A) (f : A → M B) (msg : string) :
  result m = Panicked msg →
  m ≫= f = Run (effects m) (Panicked msg).
Proof. intros E. unfold mbind, M_bind. rewrite E. reflexivity. Qed.

(** The effects of the first computation come first, whatever follows. *)
Lemma bind_effects_prefix {A B} (m : M A) (f : A → M B) :
  ∃ rest, effects (m ≫= f) = effects m ++ rest
          ∧ ((∀ a, result m ≠ Returned a) → rest = []).
Proof.
  destruct (result m) as [a|msg] eqn:E.
  - exists (effects (f a)). rewrite (bind_Returned _ _ _ E). split; [done|].
    intros Hne. by destruct (Hne a).
  - exists []. rewrite (bind_Panicked _ _ _ E). simpl.
    split; [by rewrite app_nil_r|done].
Qed.

(** ** verifyInteraction *)

Section VerifyFacts.
Context {Logger Tracer Validator Service : Type}.
Variable equation : bytes → bytes → bytes → bool.
Implicit Types (h : DiscordHandler Logger Tracer Validator Service).
Implicit Types (env : gmap string string) (c : fiber.Ctx).

(** The four header checks: each failure logs one line and returns
    [false], before the key is looked up. *)
Lemma verifyInteraction_header_failure h env c :
  signature_header c = EmptyString
  ∨ snd (hex.DecodeString (signature_header c)) ≠ None
  ∨ length (fst (hex.DecodeString (signature_header c))) ≠ ed25519.SignatureSize
  ∨ timestamp_header c = EmptyString →
  ∃ line, verifyInteraction equation h env c = Run [LogInfo line] (Returned false).
Proof.
  unfold verifyInteraction, signature_header, timestamp_header.
  intros Hbad.
  destruct (decide (fiber.Get c "X-Signature-Ed25519" = EmptyString)) as [Hs|Hs];
    [by eexists|].
  destruct (hex.DecodeString (fiber.Get c "X-Signature-Ed25519")) as [sig err];
    simpl in Hbad.
  destruct (decide (err ≠ None)) as [He|He]; [by eexists|].
  destruct (decide (length sig ≠ ed25519.SignatureSize)) as [Hl|Hl]; [by eexists|].
  destruct (decide (fiber.Get c "X-Signature-Timestamp" = EmptyString)) as [Ht|Ht];
    [by eexists|].
  exfalso. destruct Hbad as [?|[?|[?|?]]]; done.
Qed.

(** Past the header checks the key is decoded, and the run ends either in
    the logged decoding error or in the call of [ed25519.Verify] on the
    timestamp followed by the body. *)
Lemma verifyInteraction_headers_pass h env c sig :
  hex.DecodeString (signature_header c) = (sig, None) →
  length sig = ed25519.SignatureSize →
  timestamp_header c ≠ EmptyString →
  verifyInteraction equation h env c =
    match hex.DecodeString (configured_key env) with
    | (key, None) =>
        ed25519.Verify equation key
          (bytes_of_string (timestamp_header c) ++ fiber.Body c) sig
    | (_, Some e) =>
        Run [LogError (Propagate (HexError e)
               ("cannot decode DISCORD_PUBLIC_KEY env variable ["
                +:+ configured_key env +:+ "]"))]
            (Returned false)
    end.
Proof.
  unfold verifyInteraction, signature_header, timestamp_header, configured_key.
  intros Hd Hl Ht.
  destruct (decide (fiber.Get c "X-Signature-Ed25519" = EmptyString)) as [Hs|Hs].
  { rewrite Hs in Hd. vm_compute in Hd. inversion Hd; subst. discriminate Hl. }
  rewrite Hd.
  destruct (decide (None ≠ None)) as [He|He]; [done|].
  destruct (decide (length sig ≠ ed25519.SignatureSize)) as [Hl'|Hl']; [done|].
  destruct (decide (fiber.Get c "X-Signature-Timestamp" = EmptyString)) as [Ht'|Ht'];
    [done|].
  destruct (hex.DecodeString (os.Getenv env "DISCORD_PUBLIC_KEY")) as [key [e|]];
    reflexivity.
Qed.

(** The header checks read neither the body nor the environment. *)
Lemma verifyInteraction_header_failure_any_body h env c env' body' :
  signature_header c = EmptyString
  ∨ snd (hex.DecodeString (signature_header c)) ≠ None
  ∨ length (fst (hex.DecodeString (signature_header c))) ≠ ed25519.SignatureSize
  ∨ timestamp_header c = EmptyString →
  verifyInteraction equation h env' (with_body c body')
  = verifyInteraction equation h env c.
Proof.
  unfold verifyInteraction, signature_header, timestamp_header.
  change (fiber.Get (with_body c body')) with (fiber.Get c).
  intros Hbad.
  destruct (decide (fiber.Get c "X-Signature-Ed25519" = EmptyString)) as [Hs|Hs];
    [done|].
  destruct (hex.DecodeString (fiber.Get c "X-Signature-Ed25519")) as [sig err];
    simpl in Hbad.
  destruct (decide (err ≠ None)) as [He|He]; [done|].
  destruct (decide (length sig ≠ ed25519.SignatureSize)) as [Hl|Hl]; [done|].
  destruct (decide (fiber.Get c "X-Signature-Timestamp" = EmptyString)) as [Ht|Ht];
    [done|].
  exfalso. destruct Hbad as [?|[?|[?|?]]]; done.
Qed.

(** [verifyInteraction] never calls [json.Unmarshal]. *)
Lemma verifyInteraction_no_unmarshal h env c :
  unmarshal_calls (verifyInteraction equation h env c) = [].
Proof.
  unfold unmarshal_calls, verifyInteraction.
  destruct (decide (fiber.Get c "X-Signature-Ed25519" = EmptyString)); [done|].
  destruct (hex.DecodeString (fiber.Get c "X-Signature-Ed25519")) as [sig err].
  destruct (decide (err ≠ None)); [done|].
  destruct (decide (length sig ≠ ed25519.SignatureSize)); [done|].
  destruct (decide (fiber.Get c "X-Signature-Timestamp" = EmptyString)); [done|].
  destruct (hex.DecodeString (os.Getenv env "DISCORD_PUBLIC_KEY")) as [key [e|]];
    done.
Qed.

(** A key of the wrong length makes [ed25519.Verify], and with it
    [verifyInteraction], panic. *)
Lemma verifyInteraction_bad_key_length h env c sig key :
  hex.DecodeString (signature_header c) = (sig, None) →
  length sig = ed25519.SignatureSize →
  timestamp_header c ≠ EmptyString →
  hex.DecodeString (configured_key env) = (key, None) →
  length key ≠ ed25519.PublicKeySize →
  result (verifyInteraction equation h env c)
  = Panicked ("ed25519: bad public key length: " +:+ Itoa (length key)).
Proof.
  intros Hd Hl Ht Hk Hlen.
  rewrite (verifyInteraction_headers_pass h env c sig Hd Hl Ht), Hk.
  simpl. unfold ed25519.verify.
  destruct (decide (length key ≠ ed25519.PublicKeySize)); done.
Qed.

(** X6: past the header checks and with a key that decodes, [ed25519.Verify]
    is called exactly once. *)
Lemma verifyInteraction_calls_verify_once h env c sig key :
  hex.DecodeString (signature_header c) = (sig, None) →
  length sig = ed25519.SignatureSize →
  timestamp_header c ≠ EmptyString →
  hex.DecodeString (configured_key env) = (key, None) →
  verify_calls (verifyInteraction equation h env c)
  = [Call_ed25519_Verify key
       (bytes_of_string (timestamp_header c) ++ fiber.Body c) sig].
Proof.
  intros Hd Hl Ht Hk.
  by rewrite (verifyInteraction_headers_pass h env c sig Hd Hl Ht), Hk.
Qed.

(** C1: when the signature header is the hexadecimal form of [sig], the
    timestamp header is not empty and the configured key decodes to [key],
    a signature that Ed25519 accepts for the timestamp followed by the body
    makes [verifyInteraction] return [true]; and whenever the signature has
    64 bytes or the key 32, the result of [verifyInteraction] is the result
    of the Ed25519 verification of [sig] over that message under [key]. *)
Theorem verifyInteraction_accepts_valid_signature h env c sig key :
  hex.DecodeString (signature_header c) = (sig, None) →
  timestamp_header c ≠ EmptyString →
  hex.DecodeString (configured_key env) = (key, None) →
  let message := bytes_of_string (timestamp_header c) ++ fiber.Body c in
  (ed25519.verify equation key message sig = Returned true →
   result (verifyInteraction equation h env c) = Returned true)
  ∧ (length sig = ed25519.SignatureSize ∨ length key = ed25519.PublicKeySize →
     result (verifyInteraction equation h env c)
     = ed25519.verify equation key message sig).
Proof.
  intros Hd Ht Hk message.
  assert (Hsize : length sig = ed25519.SignatureSize →
            result (verifyInteraction equation h env c)
            = ed25519.verify equation key message sig).
  { intros Hl.
    rewrite (verifyInteraction_headers_pass h env c sig Hd Hl Ht), Hk.
    reflexivity. }
  split.
  - intros Hvalid. rewrite <- Hvalid. apply Hsize.
    unfold ed25519.verify in Hvalid.
    destruct (decide (length key ≠ ed25519.PublicKeySize)); [done|].
    destruct (decide (length sig ≠ ed25519.SignatureSize)) as [|Hl]; [done|].
    by apply dec_stable.
  - intros [Hl|Hl]; [by apply Hsize|].
    destruct (decide (length sig = ed25519.SignatureSize)) as [|Hne];
      [by apply Hsize|].
    destruct (verifyInteraction_header_failure h env c) as [line ->].
    { right; right; left. by rewrite Hd. }
    unfold ed25519.verify.
    destruct (decide (length key ≠ ed25519.PublicKeySize)); [done|].
    destruct (decide (length sig ≠ ed25519.SignatureSize)); done.
Qed.

(** The message handed to [ed25519.Verify] is the bytes of the timestamp
    header followed by the bytes [c.Body()] returned, nothing between them
    and nothing changed by the handler. *)
Theorem verify_message_is_timestamp_then_body h env c publicKey message sig :
  In (Call_ed25519_Verify publicKey message sig)
     (effects (verifyInteraction equation h env c)) →
  message = bytes_of_string (timestamp_header c) ++ fiber.Body c.
Proof.
  unfold verifyInteraction, timestamp_header.
  destruct (decide (fiber.Get c "X-Signature-Ed25519" = EmptyString));
    [by intros [?|[]]|].
  destruct (hex.DecodeString (fiber.Get c "X-Signature-Ed25519")) as [sig' err].
  destruct (decide (err ≠ None)); [by intros [?|[]]|].
  destruct (decide (length sig' ≠ ed25519.SignatureSize)); [by intros [?|[]]|].
  destruct (decide (fiber.Get c "X-Signature-Timestamp" = EmptyString));
    [by intros [?|[]]|].
  destruct (hex.DecodeString (os.Getenv env "DISCORD_PUBLIC_KEY")) as [key [e|]];
    [by intros [?|[]]|].
  intros [Hcall|[]]. by inversion Hcall.
Qed.

(** C7: a signature header that is empty, is not hexadecimal, or decodes to
    other than 64 bytes, and likewise an empty timestamp header, make
    [verifyInteraction] return [false] without a call of [ed25519.Verify];
    the run is the same whatever the body (and the configured key). *)
Theorem verifyInteraction_rejects_bad_headers h env c :
  signature_header c = EmptyString
  ∨ snd (hex.DecodeString (signature_header c)) ≠ None
  ∨ (∃ sig, hex.DecodeString (signature_header c) = (sig, None)
            ∧ length sig ≠ ed25519.SignatureSize)
  ∨ timestamp_header c = EmptyString →
  result (verifyInteraction equation h env c) = Returned false
  ∧ verify_calls (verifyInteraction equation h env c) = []
  ∧ ∀ body' env',
      verifyInteraction equation h env' (with_body c body')
      = verifyInteraction equation h env c.
Proof.
  intros Hbad.
  assert (Hbad' :
    signature_header c = EmptyString
    ∨ snd (hex.DecodeString (signature_header c)) ≠ None
    ∨ length (fst (hex.DecodeString (signature_header c))) ≠ ed25519.SignatureSize
    ∨ timestamp_header c = EmptyString).
  { destruct Hbad as [?|[?|[(sig & Hd & Hl)|?]]]; auto.
    right; right; left. by rewrite Hd. }
  split_and!.
  - by destruct (verifyInteraction_header_failure h env c Hbad') as [line ->].
  - by destruct (verifyInteraction_header_failure h env c Hbad') as [line ->].
  - intros body' env'.
    by apply verifyInteraction_header_failure_any_body.
Qed.

End VerifyFacts.

(** ** Signing and verifying *)

Section Signing.
Context {Logger Tracer Validator Service : Type}.

(** A signature scheme: private keys with their public keys, signing, and
    the verification equation, which accepts what signing produced. *)
Variable PrivateKey : Type.
Variable public : PrivateKey → bytes.
Variable sign : PrivateKey → bytes → bytes.
Variable equation : bytes → bytes → bytes → bool.
Hypothesis public_size : ∀ sk, length (public sk) = ed25519.PublicKeySize.
Hypothesis sign_size : ∀ sk m, length (sign sk m) = ed25519.SignatureSize.
Hypothesis sign_correct : ∀ sk m, equation (public sk) m (sign sk m) = true.

(** X5: signing the timestamp followed by the body with the private key of the
    configured public key, and presenting the signature in hexadecimal, is
    accepted. *)
Lemma signed_request_verifies
    (h : DiscordHandler Logger Tracer Validator Service)
    (env : gmap string string) (c : fiber.Ctx) (sk : PrivateKey) :
  configured_key env = hex.EncodeToString (public sk) →
  timestamp_header c ≠ EmptyString →
  signature_header c
  = hex.EncodeToString
      (sign sk (bytes_of_string (timestamp_header c) ++ fiber.Body c)) →
  result (verifyInteraction equation h env c) = Returned true.
Proof.
  intros Hk Ht Hs.
  rewrite (verifyInteraction_headers_pass equation h env c
             (sign sk (bytes_of_string (timestamp_header c) ++ fiber.Body c))).
  - rewrite Hk, hex_DecodeString_EncodeToString.
    cbn [ed25519.Verify result]. unfold ed25519.verify.
    destruct (decide _) as [Hbad|_]; [by destruct Hbad|].
    destruct (decide _) as [Hbad|_]; [by destruct Hbad|].
    by rewrite sign_correct.
  - rewrite Hs. apply hex_DecodeString_EncodeToString.
  - apply sign_size.
  - done.
Qed.

End Signing.

(** ** float64 comparison *)

Lemma float64_one : float64_of_Z 1 = S754_finite false 4503599627370496 (-52).
Proof. vm_compute. reflexivity. Qed.

Lemma float64_two : float64_of_Z 2 = S754_finite false 4503599627370496 (-51).
Proof. vm_compute. reflexivity. Qed.

(** A [float64] equal to 2 is not equal to 1. *)
Lemma float64_two_not_one (f : spec_float) :
  float64_eqb f (float64_of_Z 2) = true →
  float64_eqb f (float64_of_Z 1) = false.
Proof.
  rewrite float64_one, float64_two. unfold float64_eqb, SFeqb, SFcompare.
  destruct f as [[]|[]| |[] m e]; try done.
  destruct (Z.compare_spec e (-51)) as [->| |]; done.
Qed.

(** ** Event *)

Lemma index_lookup (m : gmap string any) (key : string) (v : any) :
  m !! key = Some v → index m key = v.
Proof. intros H. unfold index. by rewrite H. Qed.

Section EventFacts.
Context {Logger Tracer Validator Service : Type}.
Variable equation : bytes → bytes → bytes → bool.
Variable json_decode : bytes → gmap string any * option error.
Variable fmt_d : any → string.
Implicit Types (h : DiscordHandler Logger Tracer Validator Service).
Implicit Types (env : gmap string string) (c : fiber.Ctx).

(** A rejected request gets the unauthorized response and nothing else
    happens after the verification. *)
Lemma Event_unverified h env c :
  result (verifyInteraction equation h env c) = Returned false →
  Event equation json_decode fmt_d h env c
  = Run (effects (verifyInteraction equation h env c)) (Returned Unauthorized).
Proof.
  intros Hv. unfold Event. rewrite (bind_Returned _ _ false Hv).
  simpl. by rewrite app_nil_r.
Qed.

(** A panic in the verification ends the whole run. *)
Lemma Event_verification_panics h env c msg :
  result (verifyInteraction equation h env c) = Panicked msg →
  Event equation json_decode fmt_d h env c
  = Run (effects (verifyInteraction equation h env c)) (Panicked msg).
Proof. intros Hv. unfold Event. by rewrite (bind_Panicked _ _ msg Hv). Qed.

(** X1: A verified request whose body does not decode gets the bad-request
    response carrying the decoding error. *)
Lemma Event_undecodable h env c partial err :
  result (verifyInteraction equation h env c) = Returned true →
  json_decode (fiber.Body c) = (partial, Some err) →
  result (Event equation json_decode fmt_d h env c) = Returned (BadRequest err).
Proof.
  intros Hv Hd. unfold Event. rewrite (bind_Returned _ _ true Hv).
  cbn [negb result]. unfold json_Unmarshal, mbind, M_bind. cbn [result].
  rewrite Hd. reflexivity.
Qed.

(** The dispatch of a verified request whose body decodes: a [type] that
    is not a [float64] makes the type assertion panic; 1 is answered with
    the handshake reply, 2 with the command reply, every other number with
    the bad-request response. *)
Lemma Event_dispatch h env c payload :
  result (verifyInteraction equation h env c) = Returned true →
  json_decode (fiber.Body c) = (payload, None) →
  result (Event equation json_decode fmt_d h env c) =
    match index payload "type" with
    | Float64 t =>
        if float64_eqb t (float64_of_Z 1) then
          Returned (JSON (Map {[ "type" := Int 1 ]}))
        else if float64_eqb t (float64_of_Z 2) then
          Returned (JSON command_reply)
        else
          Returned (BadRequest
            (NewError ("unknown type [" +:+ fmt_d (index payload "type") +:+ "]")))
    | v =>
        Panicked ("interface conversion: interface {} is " +:+ type_name v
                  +:+ ", not float64")
    end.
Proof.
  intros Hv Hd. unfold Event. rewrite (bind_Returned _ _ true Hv).
  cbn [negb result]. unfold json_Unmarshal, mbind, M_bind. cbn [result].
  rewrite Hd. cbn [result Info emit].
  destruct (index payload "type") as [|b|n|t|s|l|m]; try reflexivity.
  cbn [assert_float64 mret M_ret result].
  destruct (float64_eqb t (float64_of_Z 1)); [reflexivity|].
  cbn [result]. destruct (float64_eqb t (float64_of_Z 2)); reflexivity.
Qed.

(** X2: a number other than 1 and 2 under [type] is answered with the
    bad-request response, whose error [stacktrace.NewError] made; there is
    no panic and no reply of another kind. *)
Lemma Event_unknown_type h env c payload t :
  result (verifyInteraction equation h env c) = Returned true →
  json_decode (fiber.Body c) = (payload, None) →
  payload !! "type" = Some (Float64 t) →
  float64_eqb t (float64_of_Z 1) = false →
  float64_eqb t (float64_of_Z 2) = false →
  ∃ format,
    result (Event equation json_decode fmt_d h env c)
    = Returned (BadRequest (NewError format)).
Proof.
  intros Hv Hd Ht H1 H2. rewrite (Event_dispatch h env c payload Hv Hd).
  rewrite (index_lookup payload "type" _ Ht). cbv iota. rewrite H1, H2.
  by eexists.
Qed.

(** X3: A missing [type], or one that is not a number, makes [Event] panic in
    the type assertion. *)
Lemma Event_non_numeric_type h env c payload :
  result (verifyInteraction equation h env c) = Returned true →
  json_decode (fiber.Body c) = (payload, None) →
  (∀ t, index payload "type" ≠ Float64 t) →
  result (Event equation json_decode fmt_d h env c)
  = Panicked ("interface conversion: interface {} is "
              +:+ type_name (index payload "type") +:+ ", not float64").
Proof.
  intros Hv Hd Ht. rewrite (Event_dispatch h env c payload Hv Hd).
  destruct (index payload "type") as [|b|n|t|s|l|m]; try reflexivity.
  by destruct (Ht t).
Qed.

(** C8: a verified request whose body decodes to a payload with the
    number 1 under [type] is answered with the body [{"type": 1}]. *)
Theorem Event_handshake_reply h env c payload t :
  result (verifyInteraction equation h env c) = Returned true →
  json_decode (fiber.Body c) = (payload, None) →
  payload !! "type" = Some (Float64 t) →
  float64_eqb t (float64_of_Z 1) = true →
  result (Event equation json_decode fmt_d h env c)
  = Returned (JSON (Map {[ "type" := Int 1 ]})).
Proof.
  intros Hv Hd Ht H1. rewrite (Event_dispatch h env c payload Hv Hd).
  rewrite (index_lookup payload "type" _ Ht). cbv iota. by rewrite H1.
Qed.

(** C3, as the code has it: a verified request whose body decodes to a
    payload with the number 2 under [type] is answered with one fixed
    reply of type 4, the same for every handler (the injected service is
    not consulted) and for every other member of the payload. *)
Theorem Event_command_reply_is_fixed h env c payload t :
  result (verifyInteraction equation h env c) = Returned true →
  json_decode (fiber.Body c) = (payload, None) →
  payload !! "type" = Some (Float64 t) →
  float64_eqb t (float64_of_Z 2) = true →
  result (Event equation json_decode fmt_d h env c) = Returned (JSON command_reply)
  ∧ member command_reply "type" = Int 4
  ∧ ∀ h', Event equation json_decode fmt_d h' env c
          = Event equation json_decode fmt_d h env c.
Proof.
  intros Hv Hd Ht H2. split_and!.
  - rewrite (Event_dispatch h env c payload Hv Hd).
    rewrite (index_lookup payload "type" _ Ht). cbv iota.
    by rewrite (float64_two_not_one t H2), H2.
  - vm_compute. reflexivity.
  - reflexivity.
Qed.

(** C4, as the code has it: a key that is not hexadecimal is met on each
    request that passes the header checks; [verifyInteraction] looks the
    key up, fails to decode it, logs the error and returns [false], and
    [Event] answers with the unauthorized response. *)
Theorem invalid_key_rejected_per_request h env c sig partial e :
  hex.DecodeString (signature_header c) = (sig, None) →
  length sig = ed25519.SignatureSize →
  timestamp_header c ≠ EmptyString →
  hex.DecodeString (configured_key env) = (partial, Some e) →
  let line :=
    LogError (Propagate (HexError e)
      ("cannot decode DISCORD_PUBLIC_KEY env variable ["
       +:+ configured_key env +:+ "]")) in
  verifyInteraction equation h env c = Run [line] (Returned false)
  ∧ Event equation json_decode fmt_d h env c = Run [line] (Returned Unauthorized).
Proof.
  intros Hd Hl Ht Hk line.
  assert (Hrun : verifyInteraction equation h env c = Run [line] (Returned false)).
  { by rewrite (verifyInteraction_headers_pass equation h env c sig Hd Hl Ht), Hk. }
  split; [done|].
  rewrite Event_unverified; by rewrite Hrun.
Qed.

(** C5: the effects of [Event] begin with those of the verification, which
    never decodes the body, and nothing follows them unless the
    verification returned [true]; a rejected request gets the unauthorized
    response at once, without a call of [json.Unmarshal], whatever the
    decoder would have made of the body. *)
Theorem Event_verifies_before_parsing h env c :
  (∃ rest,
     effects (Event equation json_decode fmt_d h env c)
     = effects (verifyInteraction equation h env c) ++ rest
     ∧ unmarshal_calls (verifyInteraction equation h env c) = []
     ∧ (result (verifyInteraction equation h env c) ≠ Returned true → rest = []))
  ∧ (result (verifyInteraction equation h env c) = Returned false →
     result (Event equation json_decode fmt_d h env c) = Returned Unauthorized
     ∧ unmarshal_calls (Event equation json_decode fmt_d h env c) = []
     ∧ ∀ json_decode' fmt_d',
         Event equation json_decode' fmt_d' h env c
         = Event equation json_decode fmt_d h env c).
Proof.
  split.
  - destruct (result (verifyInteraction equation h env c)) as [[]|msg] eqn:Hv.
    + unfold Event. rewrite (bind_Returned _ _ true Hv). cbn [effects].
      eexists. split_and!; [done|apply verifyInteraction_no_unmarshal|done].
    + exists []. rewrite (Event_unverified h env c Hv). cbn [effects].
      rewrite app_nil_r. split_and!; [done|apply verifyInteraction_no_unmarshal|done].
    + exists []. rewrite (Event_verification_panics h env c msg Hv). cbn [effects].
      rewrite app_nil_r. split_and!; [done|apply verifyInteraction_no_unmarshal|done].
  - intros Hv. rewrite (Event_unverified h env c Hv). split_and!.
    + done.
    + apply verifyInteraction_no_unmarshal.
    + intros json_decode' fmt_d'. unfold Event.
      rewrite (bind_Returned _ _ false Hv). simpl. by rewrite app_nil_r.
Qed.

(** Two requests on which the verification returns [false] get the same
    response, the unauthorized one, which carries nothing of the reason. *)
Theorem unauthorized_is_uniform h1 h2 env1 env2 c1 c2 :
  result (verifyInteraction equation h1 env1 c1) = Returned false →
  result (verifyInteraction equation h2 env2 c2) = Returned false →
  result (Event equation json_decode fmt_d h1 env1 c1) = Returned Unauthorized
  ∧ result (Event equation json_decode fmt_d h1 env1 c1)
    = result (Event equation json_decode fmt_d h2 env2 c2).
Proof.
  intros Hv1 Hv2.
  by rewrite (Event_unverified h1 env1 c1 Hv1), (Event_unverified h2 env2 c2 Hv2).
Qed.

End EventFacts.

(** * Runs on the sample requests *)

Lemma bytes_eqb_refl (l : bytes) : Sample.bytes_eqb l l = true.
Proof.
  induction l as [|x l IH]; [done|].
  cbn [Sample.bytes_eqb]. rewrite IH, andb_true_r. by apply Byte.byte_dec_lb.
Qed.

(** The checksum stands in for a signature scheme with one key pair. *)
Lemma signed_request_verifies_witness :
  result (Sample.verify Sample.env Sample.handshake_request) = Returned true.
Proof.
  apply (signed_request_verifies unit (λ _, Sample.key)
           (λ _ m, Sample.sign Sample.key m) Sample.equation) with (sk := tt).
  - intros _. reflexivity.
  - intros _ m. apply repeat_length.
  - intros _ m. apply bytes_eqb_refl.
  - reflexivity.
  - vm_compute. discriminate.
  - reflexivity.
Defined.

Lemma verifyInteraction_accepts_valid_signature_witness :
  ed25519.verify Sample.equation Sample.key
    (bytes_of_string (timestamp_header Sample.handshake_request)
     ++ fiber.Body Sample.handshake_request)
    (Sample.sign Sample.key
       (bytes_of_string Sample.timestamp ++ Sample.body_handshake))
  = Returned true
  ∧ result (Sample.verify Sample.env Sample.handshake_request) = Returned true.
Proof.
  split; [vm_compute; reflexivity|].
  refine (proj1 (verifyInteraction_accepts_valid_signature Sample.equation
           (Sample.handler Sample.sending) Sample.env Sample.handshake_request
           (Sample.sign Sample.key
              (bytes_of_string Sample.timestamp ++ Sample.body_handshake))
           Sample.key _ _ _) _);
    vm_compute; done.
Defined.

Lemma verify_message_is_timestamp_then_body_witness :
  bytes_of_string "1700000000" ++ Sample.body_handshake
  = bytes_of_string (timestamp_header Sample.handshake_request)
    ++ fiber.Body Sample.handshake_request.
Proof.
  apply (verify_message_is_timestamp_then_body Sample.equation
           (Sample.handler Sample.sending) Sample.env Sample.handshake_request
           Sample.key _
           (Sample.sign Sample.key
              (bytes_of_string Sample.timestamp ++ Sample.body_handshake))).
  vm_compute. left. reflexivity.
Defined.

Lemma verifyInteraction_rejects_bad_headers_witness :
  hex.DecodeString (signature_header Sample.short_signature_request)
  = ([xab; xcd], None)
  ∧ result (Sample.verify Sample.env Sample.short_signature_request)
    = Returned false
  ∧ verify_calls (Sample.verify Sample.env Sample.short_signature_request) = [].
Proof.
  split; [vm_compute; reflexivity|].
  destruct (verifyInteraction_rejects_bad_headers Sample.equation
              (Sample.handler Sample.sending) Sample.env
              Sample.short_signature_request) as (Hr & Hc & _).
  - right; right; left. exists [xab; xcd]. split; vm_compute; [reflexivity|lia].
  - split; assumption.
Defined.

Lemma Event_handshake_reply_witness :
  result (Sample.verify Sample.env Sample.handshake_request) = Returned true
  ∧ result (Sample.event Sample.sending Sample.env Sample.handshake_request)
    = Returned (JSON (Map {[ "type" := Int 1 ]})).
Proof.
  split; [vm_compute; reflexivity|].
  apply (Event_handshake_reply Sample.equation Sample.json_decode Sample.fmt_d
           (Sample.handler Sample.sending) Sample.env Sample.handshake_request
           (fst (Sample.json_decode Sample.body_handshake)) (float64_of_Z 1));
    vm_compute; reflexivity.
Defined.

Lemma Event_command_reply_is_fixed_witness :
  result (Sample.event Sample.failing Sample.env Sample.command_request)
  = Returned (JSON command_reply).
Proof.
  refine (proj1 (Event_command_reply_is_fixed Sample.equation Sample.json_decode
           Sample.fmt_d (Sample.handler Sample.failing) Sample.env
           Sample.command_request
           (fst (Sample.json_decode (fiber.Body Sample.command_request)))
           (float64_of_Z 2) _ _ _ _));
    vm_compute; reflexivity.
Defined.

Lemma invalid_key_rejected_per_request_witness :
  hex.DecodeString (configured_key Sample.env_invalid_key)
  = ([], Some (hex.InvalidByteError "z"%byte))
  ∧ result (Sample.event Sample.sending Sample.env_invalid_key
              Sample.handshake_request)
    = Returned Unauthorized.
Proof.
  split; [vm_compute; reflexivity|].
  destruct (invalid_key_rejected_per_request Sample.equation Sample.json_decode
              Sample.fmt_d (Sample.handler Sample.sending) Sample.env_invalid_key
              Sample.handshake_request
              (Sample.sign Sample.key
                 (bytes_of_string Sample.timestamp ++ Sample.body_handshake))
              [] (hex.InvalidByteError "z"%byte)) as [_ Hrun].
  - vm_compute. reflexivity.
  - vm_compute. reflexivity.
  - vm_compute. discriminate.
  - vm_compute. reflexivity.
  - unfold Sample.event. rewrite Hrun. reflexivity.
Defined.

Lemma Event_verifies_before_parsing_witness :
  result (Sample.verify Sample.env Sample.tampered_request) = Returned false
  ∧ result (Sample.event Sample.sending Sample.env Sample.tampered_request)
    = Returned Unauthorized
  ∧ unmarshal_calls
      (Sample.event Sample.sending Sample.env Sample.tampered_request) = [].
Proof.
  assert (Hv : result (Sample.verify Sample.env Sample.tampered_request)
               = Returned false) by (vm_compute; reflexivity).
  split; [exact Hv|].
  destruct (proj2 (Event_verifies_before_parsing Sample.equation
              Sample.json_decode Sample.fmt_d (Sample.handler Sample.sending)
              Sample.env Sample.tampered_request) Hv) as (Hr & Hc & _).
  split; assumption.
Defined.

Lemma unauthorized_is_uniform_witness :
  effects (Sample.verify Sample.env Sample.no_signature_request)
  ≠ effects (Sample.verify Sample.env Sample.tampered_request)
  ∧ result (Sample.event Sample.sending Sample.env Sample.no_signature_request)
    = result (Sample.event Sample.sending Sample.env Sample.tampered_request).
Proof.
  split; [vm_compute; discriminate|].
  apply (unauthorized_is_uniform Sample.equation Sample.json_decode Sample.fmt_d
           (Sample.handler Sample.sending) (Sample.handler Sample.sending)
           Sample.env Sample.env
           Sample.no_signature_request Sample.tampered_request);
    vm_compute; reflexivity.
Defined.

(** The five reasons for a rejection leave different traces in the log and
    the same response. *)
Example rejections_by_reason :
  Sample.event Sample.sending Sample.env Sample.no_signature_request
  = Run [LogInfo "X-Signature-Ed25519 header is empty"] (Returned Unauthorized)
  ∧ Sample.event Sample.sending Sample.env
      {| fiber.headers := {[ "X-Signature-Ed25519" := "xyz" ]}; fiber.body := [] |}
    = Run [LogInfo "cannot decode X-Signature-Ed25519 [xyz]"]
          (Returned Unauthorized)
  ∧ Sample.event Sample.sending Sample.env Sample.short_signature_request
    = Run [LogInfo "invalid signature size [2]"] (Returned Unauthorized)
  ∧ Sample.event Sample.sending Sample.env
      {| fiber.headers :=
           {[ "X-Signature-Ed25519" :=
                hex.EncodeToString (repeat x00 ed25519.SignatureSize) ]};
         fiber.body := [] |}
    = Run [LogInfo "X-Signature-Timestamp header is empty"]
          (Returned Unauthorized)
  ∧ result (Sample.event Sample.sending Sample.env Sample.tampered_request)
    = Returned Unauthorized.
Proof. vm_compute. done. Qed.

(** C2: a verified request without a [type] member is not answered with
    the bad-request response: the type assertion on the missing member
    panics. *)
Theorem Event_missing_type_panics :
  result (Sample.verify Sample.env Sample.no_type_request) = Returned true
  ∧ Sample.json_decode (fiber.Body Sample.no_type_request) = (∅, None)
  ∧ result (Sample.event Sample.sending Sample.env Sample.no_type_request)
    = Panicked "interface conversion: interface {} is nil, not float64".
Proof. vm_compute. done. Qed.

(** The same with a [type] that is a string. *)
Example Event_string_type_panics :
  result (Sample.event Sample.sending Sample.env Sample.string_type_request)
  = Panicked "interface conversion: interface {} is string, not float64".
Proof. vm_compute. reflexivity. Qed.

(** C10: with the key unset, a request that passes the header checks makes
    [verifyInteraction] panic in [ed25519.Verify] instead of returning
    [false]. *)
Theorem verifyInteraction_unset_key_panics :
  hex.DecodeString (configured_key Sample.env_unset) = ([], None)
  ∧ result (Sample.verify Sample.env_unset Sample.handshake_request)
    = Panicked "ed25519: bad public key length: 0".
Proof. vm_compute. done. Qed.

(** The same with a key of two bytes. *)
Example verifyInteraction_short_key_panics :
  result (Sample.verify {[ "DISCORD_PUBLIC_KEY" := "abcd" ]}
            Sample.handshake_request)
  = Panicked "ed25519: bad public key length: 2".
Proof. vm_compute. reflexivity. Qed.

(** C3 does not hold as stated: the reply to a command is the failure text with
    the built-in phone numbers, whether the injected service reports the
    message as sent or not, and whatever sender the request names. *)
Lemma command_reply_ignores_outcome_and_fields :
  result (Sample.verify Sample.env Sample.command_request) = Returned true
  ∧ index Sample.command_payload "type" = Float64 (float64_of_Z 2)
  ∧ index Sample.command_payload "from" = Str "+15550001111"
  ∧ Sample.sending Sample.command_payload = Sample.Sent
  ∧ result (Sample.event Sample.sending Sample.env Sample.command_request)
    = Returned (JSON command_reply)
  ∧ member (member command_reply "data") "content"
    = Str "*⚠ could not send SMS message*"
  ∧ field_value command_reply "From:" = Some (Str "+37259139660")
  ∧ result (Sample.event Sample.failing Sample.env Sample.other_command_request)
    = result (Sample.event Sample.sending Sample.env Sample.command_request).
Proof. vm_compute. done. Qed.

(** C4 does not hold as stated: with a key that is not hexadecimal the handler
    is built and serves the endpoint; the bad key is met inside the
    request, logged, and answered with the unauthorized response, and the
    same handler accepts the same request once the variable is set. *)
Lemma invalid_key_is_a_request_error :
  snd (hex.DecodeString (configured_key Sample.env_invalid_key))
  = Some (hex.InvalidByteError "z"%byte)
  ∧ Sample.event Sample.sending Sample.env_invalid_key Sample.handshake_request
    = Run [LogError (Propagate (HexError (hex.InvalidByteError "z"%byte))
             "cannot decode DISCORD_PUBLIC_KEY env variable [zz]")]
          (Returned Unauthorized)
  ∧ result (Sample.event Sample.sending Sample.env Sample.handshake_request)
    = Returned (JSON (Map {[ "type" := Int 1 ]})).
Proof. vm_compute. done. Qed.

(** * Further properties of the event handler *)

Section MoreEventFacts.
Context {Logger Tracer Validator Service : Type}.
Variable equation : bytes → bytes → bytes → bool.
Variable json_decode : bytes → gmap string any * option error.
Variable fmt_d : any → string.
Implicit Types (h : DiscordHandler Logger Tracer Validator Service).
Implicit Types (env : gmap string string) (c : fiber.Ctx).

(** X4: with a configured key that decodes to other than 32 bytes, a request
    that passes the header checks gets no response at all: the run of
    [Event] is the one call of [ed25519.Verify] and its panic, and the body
    is not decoded. *)
Theorem Event_bad_key_length_panics h env c sig key :
  hex.DecodeString (signature_header c) = (sig, None) →
  length sig = ed25519.SignatureSize →
  timestamp_header c ≠ EmptyString →
  hex.DecodeString (configured_key env) = (key, None) →
  length key ≠ ed25519.PublicKeySize →
  Event equation json_decode fmt_d h env c
  = Run [Call_ed25519_Verify key
           (bytes_of_string (timestamp_header c) ++ fiber.Body c) sig]
        (Panicked ("ed25519: bad public key length: " +:+ Itoa (length key))).
Proof.
  intros Hd Hl Ht Hk Hlen.
  assert (Hrun : verifyInteraction equation h env c
    = Run [Call_ed25519_Verify key
             (bytes_of_string (timestamp_header c) ++ fiber.Body c) sig]
          (Panicked ("ed25519: bad public key length: " +:+ Itoa (length key)))).
  { rewrite (verifyInteraction_headers_pass equation h env c sig Hd Hl Ht), Hk.
    unfold ed25519.Verify, ed25519.verify.
    destruct (decide (length key ≠ ed25519.PublicKeySize)); done. }
  unfold Event. rewrite (bind_Panicked _ _ _ (f_equal result Hrun)).
  by rewrite Hrun.
Qed.

End MoreEventFacts.

Lemma Event_bad_key_length_panics_witness :
  result (Sample.event Sample.sending {[ "DISCORD_PUBLIC_KEY" := "abcd" ]}
            Sample.handshake_request)
  = Panicked "ed25519: bad public key length: 2".
Proof.
  unfold Sample.event.
  rewrite (Event_bad_key_length_panics Sample.equation Sample.json_decode
             Sample.fmt_d (Sample.handler Sample.sending)
             {[ "DISCORD_PUBLIC_KEY" := "abcd" ]} Sample.handshake_request
             (Sample.sign Sample.key
                (bytes_of_string Sample.timestamp ++ Sample.body_handshake))
             [xab; xcd]).
  - reflexivity.
  - vm_compute. reflexivity.
  - vm_compute. reflexivity.
  - vm_compute. discriminate.
  - vm_compute. reflexivity.
  - vm_compute. lia.
Defined.

Lemma verifyInteraction_calls_verify_once_witness :
  verify_calls (Sample.verify Sample.env Sample.handshake_request)
  = [Call_ed25519_Verify Sample.key
       (bytes_of_string "1700000000" ++ Sample.body_handshake)
       (Sample.sign Sample.key
          (bytes_of_string Sample.timestamp ++ Sample.body_handshake))].
Proof.
  apply (verifyInteraction_calls_verify_once Sample.equation
           (Sample.handler Sample.sending) Sample.env Sample.handshake_request);
    vm_compute; done.
Defined.

Lemma Event_undecodable_witness :
  result (Sample.event Sample.sending Sample.env
            (Sample.signed Sample.timestamp (bytes_of_string "[1]")))
  = Returned (BadRequest (JsonError "cannot decode into a map")).
Proof.
  apply (Event_undecodable Sample.equation Sample.json_decode Sample.fmt_d
           (Sample.handler Sample.sending) Sample.env
           (Sample.signed Sample.timestamp (bytes_of_string "[1]")) ∅);
    vm_compute; reflexivity.
Defined.

Lemma Event_unknown_type_witness :
  ∃ format,
    result (Sample.event Sample.sending Sample.env Sample.unknown_request)
    = Returned (BadRequest (NewError format)).
Proof.
  apply (Event_unknown_type Sample.equation Sample.json_decode Sample.fmt_d
           (Sample.handler Sample.sending) Sample.env Sample.unknown_request
           (fst (Sample.json_decode Sample.body_unknown)) (float64_of_Z 99));
    vm_compute; reflexivity.
Defined.

Lemma Event_non_numeric_type_witness :
  result (Sample.event Sample.sending Sample.env Sample.string_type_request)
  = Panicked "interface conversion: interface {} is string, not float64".
Proof.
  apply (Event_non_numeric_type Sample.equation Sample.json_decode Sample.fmt_d
           (Sample.handler Sample.sending) Sample.env
           Sample.string_type_request
           (fst (Sample.json_decode Sample.body_string_type))).
  - vm_compute. reflexivity.
  - vm_compute. reflexivity.
  - intros t. vm_compute. discriminate.
Defined.

(** * Properties of the integrations handlers *)

Section IntegrationFacts.
Import integrations.
Context {UserID AuthUser Discord UUID : Type}.
Context {IndexRequest UpdateFields StoreRequest : Type}.
Context {UpdateParams StoreParams Locals : Type}.
Variable d : @Deps UserID AuthUser Discord UUID IndexRequest UpdateFields
                   StoreRequest UpdateParams StoreParams Locals.
Implicit Types c : @Ctx Locals.

(** *** Index *)

(** X7: [Index] answers with the OK response exactly when the query parses,
    the validator finds nothing and the service succeeds; the response then
    carries the integrations of the user of the context, as the service
    returned them, and their count in the message. *)
Theorem Index_OK_iff c message dat :
  value (Index d c) = Returned (OK message dat) ↔
  ∃ request found,
    QueryParser d c = (request, None)
    ∧ size (ValidateIndex d (snd (Index_Sanitize d request))) = 0
    ∧ Index_result d (userIDFomContext d c)
        (ToIndexParams d (fst (Index_Sanitize d request))) = (found, None)
    ∧ message = "fetched " +:+ Itoa (length found) +:+ " discord "
                +:+ pluralize d "integration" (length found)
    ∧ dat = Many found.
Proof.
  unfold Index.
  destruct (QueryParser d c) as [request [err|]] eqn:Hq.
  { split; [discriminate|]. intros (? & ? & [= _ ?] & _). }
  destruct (Index_Sanitize d request) as [request' sanitized] eqn:Hs.
  unfold mbind, W_bind, validate_Index. cbn [value calls].
  destruct (decide (size (ValidateIndex d sanitized) ≠ 0)) as [Hv|Hv].
  { split; [discriminate|]. intros (r & ? & [= <-] & Hsz & _).
    rewrite Hs in Hsz. done. }
  unfold call_Index. cbn [value calls].
  destruct (Index_result d (userIDFomContext d c) (ToIndexParams d request'))
    as [found [err|]] eqn:Hi.
  { split; [discriminate|]. intros (r & ? & [= <-] & _ & Hr & _).
    rewrite Hs in Hr. cbn [fst] in Hr. congruence. }
  cbn [value]. split.
  - intros [= <- <-]. exists request, found. rewrite Hs. cbn [fst snd].
    split_and!; [done|by apply dec_stable|done|done|done].
  - intros (r & found' & [= <-] & _ & Hr & -> & ->).
    rewrite Hs in Hr. cbn [fst] in Hr. rewrite Hi in Hr.
    by injection Hr as <-.
Qed.

(** X8: [Index] only reads: it makes no call that changes the integrations,
    and it asks the service for them only when the query parsed and the
    validator found nothing, for the user of the context. *)
Theorem Index_only_reads c :
  List.filter is_write_call (calls (Index d c)) = []
  ∧ ∀ e, In e (calls (Index d c)) → is_service_call e = true →
      ∃ request,
        QueryParser d c = (request, None)
        ∧ size (ValidateIndex d (snd (Index_Sanitize d request))) = 0
        ∧ e = service_Index (userIDFomContext d c)
                (ToIndexParams d (fst (Index_Sanitize d request))).
Proof.
  unfold Index.
  destruct (QueryParser d c) as [request [err|]] eqn:Hq.
  { split; [done|]. intros e [<-|[]]. discriminate. }
  destruct (Index_Sanitize d request) as [request' sanitized] eqn:Hs.
  unfold mbind, W_bind, validate_Index. cbn [value calls].
  destruct (decide (size (ValidateIndex d sanitized) ≠ 0)) as [Hv|Hv].
  { split; [done|]. intros e [<-|[<-|[]]]; discriminate. }
  unfold call_Index. cbn [value calls].
  assert (Hsz : size (ValidateIndex d sanitized) = 0) by by apply dec_stable.
  destruct (Index_result d (userIDFomContext d c) (ToIndexParams d request'))
    as [found [err|]] eqn:Hi; cbn [calls app].
  - split; [done|]. intros e [<-|[<-|[<-|[]]]]; try discriminate.
    intros _. exists request. by rewrite Hs.
  - split; [done|]. intros e [<-|[<-|[]]]; try discriminate.
    intros _. exists request. by rewrite Hs.
Qed.

(** *** Delete *)

(** X9: an identifier the validator rejects, the empty one of a route without
    the parameter included, is answered with the validator's errors; it is
    never handed to [uuid.MustParse] and the service is not called. *)
Theorem Delete_rejects_invalid_id c :
  size (ValidateUUID d (Params c "discordID") "discordID") ≠ 0 →
  value (Delete d c)
  = Returned (UnprocessableEntity
      (ValidateUUID d (Params c "discordID") "discordID")
      "validation errors while deleting discord integration")
  ∧ List.filter is_service_call (calls (Delete d c)) = [].
Proof.
  intros Hv. unfold Delete, mbind, W_bind, validate_UUID. cbn [value calls].
  destruct (decide _) as [_|Hok]; [done|by destruct Hok].
Qed.

(** X10: [Delete] panics exactly when the validator lets through an identifier
    that [uuid.Parse] refuses; the service is not called then. *)
Theorem Delete_panics_iff c :
  ((∃ message, value (Delete d c) = Panicked message) ↔
   size (ValidateUUID d (Params c "discordID") "discordID") = 0
   ∧ ∃ err, uuid_Parse d (Params c "discordID") = inr err)
  ∧ ((∃ message, value (Delete d c) = Panicked message) →
     List.filter is_service_call (calls (Delete d c)) = []).
Proof.
  unfold Delete, mbind, W_bind, validate_UUID. cbn [value calls].
  destruct (decide _) as [Hv|Hv].
  { split; [|done]. split; [by intros [? ?]|by intros [? _]]. }
  apply dec_stable in Hv. unfold uuid_MustParse.
  destruct (uuid_Parse d (Params c "discordID")) as [id|err] eqn:Hp.
  - cbn [value calls mret W_ret]. unfold call_Delete. cbn [value calls].
    destruct (Delete_result d (userIDFomContext d c) id); cbn [value];
      (split; [split; [by intros [? ?]|by intros [_ [? ?]]]|by intros [? ?]]).
  - cbn [value calls]. split; [|done].
    split; [by eauto|by eauto].
Qed.

(** X11: an identifier that passes the validator and parses is deleted for the
    user of the context, in one call of the service; the answer is the OK
    response when the service succeeds and the internal-error response,
    after logging the error, when it fails. *)
Theorem Delete_calls_service_once c id :
  size (ValidateUUID d (Params c "discordID") "discordID") = 0 →
  uuid_Parse d (Params c "discordID") = inl id →
  List.filter is_service_call (calls (Delete d c))
  = [service_Delete (userIDFomContext d c) id]
  ∧ value (Delete d c)
    = match Delete_result d (userIDFomContext d c) id with
      | None =>
          Returned (OK "discord integration deleted successfully" NoData)
      | Some _ => Returned InternalServerError
      end.
Proof.
  intros Hv Hp. unfold Delete, mbind, W_bind, validate_UUID.
  cbn [value calls].
  destruct (decide _) as [Hbad|_]; [done|].
  unfold uuid_MustParse. rewrite Hp. cbn [value calls mret W_ret].
  unfold call_Delete. cbn [value calls].
  by destruct (Delete_result d (userIDFomContext d c) id).
Qed.

(** *** Update *)

(** X12: what [Update] validates is the request of the body with its
    identifier replaced by the one of the route, whatever the body said. *)
Theorem Update_validates_route_id c r :
  In (validator_ValidateUpdate r) (calls (Update d c)) →
  ∃ parsed,
    BodyParser_Update d c = (parsed, None)
    ∧ r = snd (Update_Sanitize d
                 {| DiscordID := Params c "discordID";
                    fields := fields parsed |}).
Proof.
  unfold Update.
  destruct (BodyParser_Update d c) as [parsed [err|]] eqn:Hb.
  { intros [?|[]]; discriminate. }
  destruct (Update_Sanitize d _) as [request sanitized] eqn:Hs.
  unfold mbind, W_bind, validate_Update. cbn [value calls].
  assert (Hfound : ∃ parsed0, (parsed, @None error) = (parsed0, None)
            ∧ sanitized = snd (Update_Sanitize d
                {| DiscordID := Params c "discordID";
                   fields := fields parsed0 |})).
  { exists parsed. by rewrite Hs. }
  destruct (decide _) as [Hv|Hv].
  { intros [H|[H|[]]]; [by injection H as <-|discriminate]. }
  unfold call_Update. cbn [value calls].
  destruct (Update_result d _) as [user [err|]]; cbn [calls app].
  - intros [H|[H|[H|[]]]]; [by injection H as <-|discriminate|discriminate].
  - intros [H|[H|[]]]; [by injection H as <-|discriminate].
Qed.

(** X13: [Update] calls the service only for a request that parsed and passed
    the validator, with the identifier of the route and the user of the
    context. *)
Theorem Update_calls_service_when_valid c e :
  In e (calls (Update d c)) → is_service_call e = true →
  ∃ parsed,
    let request := {| DiscordID := Params c "discordID";
                      fields := fields parsed |} in
    BodyParser_Update d c = (parsed, None)
    ∧ size (ValidateUpdate d (snd (Update_Sanitize d request))) = 0
    ∧ e = service_Update
            (ToUpdateParams d (fst (Update_Sanitize d request))
               (userFromContext d c)).
Proof.
  unfold Update.
  destruct (BodyParser_Update d c) as [parsed [err|]] eqn:Hb.
  { intros [<-|[]]; discriminate. }
  destruct (Update_Sanitize d _) as [request sanitized] eqn:Hs.
  unfold mbind, W_bind, validate_Update. cbn [value calls].
  destruct (decide _) as [Hv|Hv].
  { intros [<-|[<-|[]]]; discriminate. }
  apply dec_stable in Hv.
  unfold call_Update. cbn [value calls].
  destruct (Update_result d _) as [user [err|]]; cbn [calls app].
  - intros [<-|[<-|[<-|[]]]]; try discriminate.
    intros _. exists parsed. cbn zeta. by rewrite Hs.
  - intros [<-|[<-|[]]]; try discriminate.
    intros _. exists parsed. cbn zeta. by rewrite Hs.
Qed.

(** *** Store *)

(** X15: A user who already has an integration gets the payment-required
    response, and nothing is stored, updated or deleted. *)
Theorem Store_refuses_second_integration c request found :
  BodyParser_Store d c = (request, None) →
  size (ValidateStore d (snd (Store_Sanitize d request))) = 0 →
  Index_result d (userIDFomContext d c)
    {| Skip := 0; Query := EmptyString; Limit := 1 |} = (found, None) →
  0 < length found →
  value (Store d c)
  = Returned (PaymentRequired
      "You can't create more than 1 discord integration contact us to upgrade your account.")
  ∧ List.filter is_write_call (calls (Store d c)) = [].
Proof.
  intros Hb Hv Hi Hlen. unfold Store. rewrite Hb.
  destruct (Store_Sanitize d request) as [request' sanitized] eqn:Hs.
  cbn [snd] in Hv.
  unfold mbind, W_bind, validate_Store. cbn [value calls].
  destruct (decide _) as [Hbad|_]; [done|].
  unfold call_Index. cbn [value calls]. rewrite Hi.
  destruct (decide _) as [_|Hno]; [done|by destruct Hno].
Qed.

(** X16: [Store] hands an integration to the service only when the body
    parsed, the validator found nothing and the service reported that the
    user has no integration yet; the integration is stored for the user of
    the context. *)
Theorem Store_stores_only_when_allowed c p :
  In (service_Store p) (calls (Store d c)) →
  ∃ request,
    BodyParser_Store d c = (request, None)
    ∧ size (ValidateStore d (snd (Store_Sanitize d request))) = 0
    ∧ Index_result d (userIDFomContext d c)
        {| Skip := 0; Query := EmptyString; Limit := 1 |} = ([], None)
    ∧ p = ToStoreParams d (fst (Store_Sanitize d request))
            (userFromContext d c).
Proof.
  unfold Store.
  destruct (BodyParser_Store d c) as [request [err|]] eqn:Hb.
  { intros [?|[]]; discriminate. }
  destruct (Store_Sanitize d request) as [request' sanitized] eqn:Hs.
  unfold mbind, W_bind, validate_Store. cbn [value calls].
  destruct (decide _) as [Hv|Hv].
  { intros [?|[?|[]]]; discriminate. }
  apply dec_stable in Hv.
  unfold call_Index. cbn [value calls].
  destruct (Index_result d (userIDFomContext d c) _) as [found [err|]] eqn:Hi;
    cbn [calls app].
  { intros [?|[?|[?|[]]]]; discriminate. }
  destruct (decide _) as [Hlen|Hlen]; cbn [calls app].
  { intros [?|[?|[?|[]]]]; discriminate. }
  assert (found = []) as -> by (destruct found; [done|cbn in Hlen; lia]).
  unfold call_Store. cbn [value calls].
  assert (Hfound : ∃ request0,
      (request, @None error) = (request0, None)
      ∧ size (ValidateStore d (snd (Store_Sanitize d request0))) = 0
      ∧ (@nil Discord, @None error) = ([], None)
      ∧ ToStoreParams d request' (userFromContext d c)
        = ToStoreParams d (fst (Store_Sanitize d request0))
            (userFromContext d c)).
  { exists request. by rewrite Hs. }
  destruct (Store_result d _) as [stored [err|]]; cbn [calls app].
  - intros [?|[?|[H|[?|[]]]]]; try discriminate. by injection H as <-.
  - intros [?|[?|[H|[]]]]; try discriminate. by injection H as <-.
Qed.

(** X17: the first integration of a user: the validator is consulted, the
    service is asked for the first integration of the user and then told to
    store the new one, and the answer is the created response carrying what
    the service stored. *)
Theorem Store_creates_first_integration c request stored :
  BodyParser_Store d c = (request, None) →
  size (ValidateStore d (snd (Store_Sanitize d request))) = 0 →
  Index_result d (userIDFomContext d c)
    {| Skip := 0; Query := EmptyString; Limit := 1 |} = ([], None) →
  Store_result d
    (ToStoreParams d (fst (Store_Sanitize d request)) (userFromContext d c))
  = (stored, None) →
  Store d c
  = Ran [validator_ValidateStore (snd (Store_Sanitize d request));
         service_Index (userIDFomContext d c)
           {| Skip := 0; Query := EmptyString; Limit := 1 |};
         service_Store
           (ToStoreParams d (fst (Store_Sanitize d request))
              (userFromContext d c))]
        (Returned (Created "discord integration created successfully"
                     (One stored))).
Proof.
  intros Hb Hv Hi Hst. unfold Store. rewrite Hb.
  destruct (Store_Sanitize d request) as [request' sanitized] eqn:Hs.
  cbn [fst snd] in *.
  unfold mbind, W_bind, validate_Store. cbn [value calls].
  destruct (decide _) as [Hbad|_]; [done|].
  unfold call_Index. cbn [value calls]. rewrite Hi.
  destruct (decide _) as [Hlen|_]; [cbn in Hlen; lia|].
  unfold call_Store. cbn [value calls]. by rewrite Hst.
Qed.

(** *** Requests that do not parse *)

(** X19: in [Index], [Update] and [Store] a request that does not parse is
    answered with the bad-request response carrying the parser's error,
    after one warning; neither the validator nor the service is called. *)
Theorem unparsed_requests_stop_at_the_parser c :
  (∀ r err, QueryParser d c = (r, Some err) →
     ∃ msg, Index d c = Ran [Warn (Propagate err msg)] (Returned (BadRequest err)))
  ∧ (∀ r err, BodyParser_Update d c = (r, Some err) →
     ∃ msg, Update d c = Ran [Warn (Propagate err msg)] (Returned (BadRequest err)))
  ∧ (∀ r err, BodyParser_Store d c = (r, Some err) →
     ∃ msg, Store d c = Ran [Warn (Propagate err msg)] (Returned (BadRequest err))).
Proof.
  split_and!; intros r err Hp.
  - unfold Index. rewrite Hp. by eexists.
  - unfold Update. rewrite Hp. by eexists.
  - unfold Store. rewrite Hp. by eexists.
Qed.

(** *** Requests the validator rejects, and failures of the service *)

(** X20: in [Index], [Update] and [Store] a request in which the validator
    finds errors is answered with the unprocessable-entity response
    carrying those errors, and the service is not called. *)
Theorem invalid_requests_stop_at_the_validator c :
  (∀ r, QueryParser d c = (r, None) →
     size (ValidateIndex d (snd (Index_Sanitize d r))) ≠ 0 →
     value (Index d c)
     = Returned (UnprocessableEntity
         (ValidateIndex d (snd (Index_Sanitize d r)))
         "validation errors while fetching discord integrations")
     ∧ List.filter is_service_call (calls (Index d c)) = [])
  ∧ (∀ r, BodyParser_Update d c = (r, None) →
     let sanitized :=
       snd (Update_Sanitize d
              {| DiscordID := Params c "discordID"; fields := fields r |}) in
     size (ValidateUpdate d sanitized) ≠ 0 →
     value (Update d c)
     = Returned (UnprocessableEntity (ValidateUpdate d sanitized)
         "validation errors while updating discord integration")
     ∧ List.filter is_service_call (calls (Update d c)) = [])
  ∧ (∀ r, BodyParser_Store d c = (r, None) →
     size (ValidateStore d (snd (Store_Sanitize d r))) ≠ 0 →
     value (Store d c)
     = Returned (UnprocessableEntity
         (ValidateStore d (snd (Store_Sanitize d r)))
         "validation errors while storing discord integration")
     ∧ List.filter is_service_call (calls (Store d c)) = []).
Proof.
  split_and!.
  - intros r Hp Hv. unfold Index. rewrite Hp.
    destruct (Index_Sanitize d r) as [request sanitized]. cbn [snd] in *.
    unfold mbind, W_bind, validate_Index. cbn [value calls].
    destruct (decide _) as [_|Hok]; [done|by destruct Hok].
  - intros r Hp sanitized Hv. unfold Update. rewrite Hp.
    subst sanitized.
    destruct (Update_Sanitize d _) as [request sanitized]. cbn [snd] in *.
    unfold mbind, W_bind, validate_Update. cbn [value calls].
    destruct (decide _) as [_|Hok]; [done|by destruct Hok].
  - intros r Hp Hv. unfold Store. rewrite Hp.
    destruct (Store_Sanitize d r) as [request sanitized]. cbn [snd] in *.
    unfold mbind, W_bind, validate_Store. cbn [value calls].
    destruct (decide _) as [_|Hok]; [done|by destruct Hok].
Qed.

(** X14: A valid update is answered with the integration as the service
    updated it, and with the internal-error response when the service
    fails. *)
Theorem Update_answers_with_the_update c parsed :
  BodyParser_Update d c = (parsed, None) →
  let request := {| DiscordID := Params c "discordID";
                    fields := fields parsed |} in
  size (ValidateUpdate d (snd (Update_Sanitize d request))) = 0 →
  value (Update d c)
  = match Update_result d
            (ToUpdateParams d (fst (Update_Sanitize d request))
               (userFromContext d c)) with
    | (updated, None) =>
        Returned (OK "discord integration updated successfully" (One updated))
    | (_, Some _) => Returned InternalServerError
    end.
Proof.
  intros Hp request Hv. unfold Update. rewrite Hp. subst request.
  destruct (Update_Sanitize d _) as [request sanitized]. cbn [fst snd] in *.
  unfold mbind, W_bind, validate_Update. cbn [value calls].
  destruct (decide _) as [Hbad|_]; [done|].
  unfold call_Update. cbn [value calls].
  by destruct (Update_result d _) as [updated [err|]].
Qed.

(** X18: when the service cannot tell whether the user has an integration,
    [Store] answers with the internal-error response and stores nothing,
    whatever list came with the error. *)
Theorem Store_stops_when_lookup_fails c request found err :
  BodyParser_Store d c = (request, None) →
  size (ValidateStore d (snd (Store_Sanitize d request))) = 0 →
  Index_result d (userIDFomContext d c)
    {| Skip := 0; Query := EmptyString; Limit := 1 |} = (found, Some err) →
  value (Store d c) = Returned InternalServerError
  ∧ List.filter is_write_call (calls (Store d c)) = []
  ∧ In (LogError (Propagate err
          ("cannot index discord integrations for user ["
           +:+ fmt_user d (userIDFomContext d c) +:+ "]")))
       (calls (Store d c)).
Proof.
  intros Hb Hv Hi. unfold Store. rewrite Hb.
  destruct (Store_Sanitize d request) as [request' sanitized] eqn:Hs.
  cbn [snd] in Hv.
  unfold mbind, W_bind, validate_Store. cbn [value calls].
  destruct (decide _) as [Hbad|_]; [done|].
  unfold call_Index. cbn [value calls]. rewrite Hi.
  split_and!; [done|done|]. cbn. auto.
Qed.

End IntegrationFacts.

(** * Runs of the integrations handlers on the sample collaborators *)

Lemma Index_OK_iff_witness :
  value (integrations.Index
           (SampleIntegrations.deps SampleIntegrations.db1 false)
           (SampleIntegrations.ctx "alice" EmptyString EmptyString))
  = Returned (integrations.OK "fetched 1 discord integration"
                (integrations.Many ["alerts"])).
Proof.
  apply (proj2 (Index_OK_iff
           (SampleIntegrations.deps SampleIntegrations.db1 false)
           (SampleIntegrations.ctx "alice" EmptyString EmptyString) _ _)).
  exists "/v1/discord-integrations", ["alerts"].
  vm_compute. done.
Defined.

Lemma Index_only_reads_witness :
  List.filter integrations.is_write_call
    (calls
       (integrations.Index
          (SampleIntegrations.deps SampleIntegrations.db1 false)
          (SampleIntegrations.ctx "alice" EmptyString EmptyString)))
  = [].
Proof.
  exact (proj1 (Index_only_reads
           (SampleIntegrations.deps SampleIntegrations.db1 false)
           (SampleIntegrations.ctx "alice" EmptyString EmptyString))).
Defined.

Lemma Delete_rejects_invalid_id_witness :
  List.filter integrations.is_service_call
    (calls
       (integrations.Delete
          (SampleIntegrations.deps SampleIntegrations.db1 false)
          (SampleIntegrations.ctx "alice" "nope" EmptyString)))
  = [].
Proof.
  apply (Delete_rejects_invalid_id
           (SampleIntegrations.deps SampleIntegrations.db1 false)
           (SampleIntegrations.ctx "alice" "nope" EmptyString)).
  vm_compute. lia.
Defined.

Lemma Delete_panics_iff_witness :
  ∃ message,
    value (integrations.Delete
             (SampleIntegrations.lax SampleIntegrations.db1)
             (SampleIntegrations.ctx "alice" "nope" EmptyString))
    = Panicked message.
Proof.
  apply (proj2 (proj1 (Delete_panics_iff
           (SampleIntegrations.lax SampleIntegrations.db1)
           (SampleIntegrations.ctx "alice" "nope" EmptyString)))).
  split; [vm_compute; reflexivity|].
  exists "invalid UUID length: 4". vm_compute. reflexivity.
Defined.

Lemma Delete_calls_service_once_witness :
  List.filter integrations.is_service_call
    (calls
       (integrations.Delete
          (SampleIntegrations.deps SampleIntegrations.db1 false)
          (SampleIntegrations.ctx "alice" SampleIntegrations.id1 EmptyString)))
  = [integrations.service_Delete "alice" SampleIntegrations.id1].
Proof.
  apply (Delete_calls_service_once
           (SampleIntegrations.deps SampleIntegrations.db1 false)
           (SampleIntegrations.ctx "alice" SampleIntegrations.id1 EmptyString)
           SampleIntegrations.id1);
    vm_compute; reflexivity.
Defined.

Lemma Update_validates_route_id_witness :
  ∃ parsed,
    integrations.BodyParser_Update
      (SampleIntegrations.deps SampleIntegrations.db1 false)
      (SampleIntegrations.ctx "alice" SampleIntegrations.id1 "renamed")
    = (parsed, None)
    ∧ integrations.DiscordID parsed = "id-from-the-body"
    ∧ {| integrations.DiscordID := SampleIntegrations.id1;
         integrations.fields := "renamed" |}
      = snd (integrations.Update_Sanitize
               (SampleIntegrations.deps SampleIntegrations.db1 false)
               {| integrations.DiscordID :=
                    integrations.Params
                      (SampleIntegrations.ctx "alice" SampleIntegrations.id1
                         "renamed") "discordID";
                  integrations.fields := integrations.fields parsed |}).
Proof.
  destruct (Update_validates_route_id
              (SampleIntegrations.deps SampleIntegrations.db1 false)
              (SampleIntegrations.ctx "alice" SampleIntegrations.id1 "renamed")
              {| integrations.DiscordID := SampleIntegrations.id1;
                 integrations.fields := "renamed" |})
    as (parsed & Hp & Hr).
  - vm_compute. left. reflexivity.
  - exists parsed. split_and!; [exact Hp| |exact Hr].
    vm_compute in Hp. by injection Hp as <-.
Defined.

Lemma Update_calls_service_when_valid_witness :
  size (integrations.ValidateUpdate
          (SampleIntegrations.deps SampleIntegrations.db1 false)
          {| integrations.DiscordID := SampleIntegrations.id1;
             integrations.fields := "renamed" |}) = 0.
Proof.
  destruct (Update_calls_service_when_valid
              (SampleIntegrations.deps SampleIntegrations.db1 false)
              (SampleIntegrations.ctx "alice" SampleIntegrations.id1 "renamed")
              (integrations.service_Update
                 ("alice",
                  {| integrations.DiscordID := SampleIntegrations.id1;
                     integrations.fields := "renamed" |})))
    as (parsed & Hp & Hv & _).
  - vm_compute. right. left. reflexivity.
  - reflexivity.
  - vm_compute in Hp. injection Hp as <-. exact Hv.
Defined.

Lemma Store_refuses_second_integration_witness :
  value (integrations.Store
           (SampleIntegrations.deps SampleIntegrations.db1 false)
           (SampleIntegrations.ctx "alice" EmptyString "ops"))
  = Returned (integrations.PaymentRequired
      "You can't create more than 1 discord integration contact us to upgrade your account.").
Proof.
  apply (Store_refuses_second_integration
           (SampleIntegrations.deps SampleIntegrations.db1 false)
           (SampleIntegrations.ctx "alice" EmptyString "ops") "ops" ["alerts"]).
  - vm_compute. reflexivity.
  - vm_compute. reflexivity.
  - vm_compute. reflexivity.
  - vm_compute. lia.
Defined.

Lemma Store_stores_only_when_allowed_witness :
  integrations.Index_result
    (SampleIntegrations.deps SampleIntegrations.db1 false) "bob"
    {| integrations.Skip := 0; integrations.Query := EmptyString;
       integrations.Limit := 1 |}
  = ([], None).
Proof.
  destruct (Store_stores_only_when_allowed
              (SampleIntegrations.deps SampleIntegrations.db1 false)
              (SampleIntegrations.ctx "bob" EmptyString "ops") ("bob", "ops"))
    as (request & _ & _ & Hi & _).
  - vm_compute. right. right. left. reflexivity.
  - exact Hi.
Defined.

Lemma Store_creates_first_integration_witness :
  value (integrations.Store
           (SampleIntegrations.deps SampleIntegrations.db1 false)
           (SampleIntegrations.ctx "bob" EmptyString "ops"))
  = Returned (integrations.Created "discord integration created successfully"
                (integrations.One "ops")).
Proof.
  rewrite (Store_creates_first_integration
             (SampleIntegrations.deps SampleIntegrations.db1 false)
             (SampleIntegrations.ctx "bob" EmptyString "ops") "ops" "ops").
  - reflexivity.
  - vm_compute. reflexivity.
  - vm_compute. reflexivity.
  - vm_compute. reflexivity.
  - vm_compute. reflexivity.
Defined.

Lemma unparsed_requests_stop_at_the_parser_witness :
  ∃ msg,
    integrations.Store
      (SampleIntegrations.deps SampleIntegrations.db1 false)
      (SampleIntegrations.ctx "bob" EmptyString EmptyString)
    = Ran [integrations.Warn (Propagate SampleIntegrations.parse_error msg)]
          (Returned (integrations.BadRequest SampleIntegrations.parse_error)).
Proof.
  apply (proj2 (proj2 (unparsed_requests_stop_at_the_parser
           (SampleIntegrations.deps SampleIntegrations.db1 false)
           (SampleIntegrations.ctx "bob" EmptyString EmptyString)))
         EmptyString).
  vm_compute. reflexivity.
Defined.

Lemma invalid_requests_stop_at_the_validator_witness :
  List.filter integrations.is_service_call
    (calls (integrations.Update
              (SampleIntegrations.deps SampleIntegrations.db1 false)
              (SampleIntegrations.ctx "alice" "nope" "renamed")))
  = [].
Proof.
  apply (proj1 (proj2 (invalid_requests_stop_at_the_validator
           (SampleIntegrations.deps SampleIntegrations.db1 false)
           (SampleIntegrations.ctx "alice" "nope" "renamed")))
         {| integrations.DiscordID := "id-from-the-body";
            integrations.fields := "renamed" |}).
  - vm_compute. reflexivity.
  - vm_compute. lia.
Defined.

Lemma Update_answers_with_the_update_witness :
  value (integrations.Update
           (SampleIntegrations.deps SampleIntegrations.db1 false)
           (SampleIntegrations.ctx "alice" SampleIntegrations.id1 "renamed"))
  = Returned (integrations.OK "discord integration updated successfully"
                (integrations.One "renamed")).
Proof.
  rewrite (Update_answers_with_the_update
             (SampleIntegrations.deps SampleIntegrations.db1 false)
             (SampleIntegrations.ctx "alice" SampleIntegrations.id1 "renamed")
             {| integrations.DiscordID := "id-from-the-body";
                integrations.fields := "renamed" |}).
  - reflexivity.
  - vm_compute. reflexivity.
  - vm_compute. reflexivity.
Defined.

Lemma Store_stops_when_lookup_fails_witness :
  value (integrations.Store
           (SampleIntegrations.deps SampleIntegrations.db1 true)
           (SampleIntegrations.ctx "bob" EmptyString "ops"))
  = Returned integrations.InternalServerError.
Proof.
  apply (Store_stops_when_lookup_fails
           (SampleIntegrations.deps SampleIntegrations.db1 true)
           (SampleIntegrations.ctx "bob" EmptyString "ops") "ops" []
           SampleIntegrations.service_error);
    vm_compute; reflexivity.
Defined.

(** * The body as received, and rejections with the key unset *)

Section ReceivedFacts.
Context {Logger Tracer Validator Service : Type}.
Variable equation : bytes → bytes → bytes → bool.
Variable json_decode : bytes → gmap string any * option error.
Variable fmt_d : any → string.
Variable content_decoding : string → bytes → bytes.
Implicit Types (h : DiscordHandler Logger Tracer Validator Service).
Implicit Types (env : gmap string string) (r : fasthttp.Request).


(** Every reason for a rejection, one by one, gets the unauthorized
    response when the configured key fails to decode or has 32 bytes. *)
Lemma every_rejection_is_unauthorized h env (c : fiber.Ctx) :
  signature_header c = EmptyString
  ∨ snd (hex.DecodeString (signature_header c)) ≠ None
  ∨ (∃ sig, hex.DecodeString (signature_header c) = (sig, None)
            ∧ length sig ≠ ed25519.SignatureSize)
  ∨ timestamp_header c = EmptyString
  ∨ (∃ sig, hex.DecodeString (signature_header c) = (sig, None)
            ∧ length sig = ed25519.SignatureSize
            ∧ timestamp_header c ≠ EmptyString
            ∧ (snd (hex.DecodeString (configured_key env)) ≠ None
               ∨ ∃ key, hex.DecodeString (configured_key env) = (key, None)
                        ∧ length key = ed25519.PublicKeySize
                        ∧ equation key
                            (bytes_of_string (timestamp_header c)
                             ++ fiber.Body c) sig = false)) →
  result (Event equation json_decode fmt_d h env c) = Returned Unauthorized.
Proof.
  intros Hwhy.
  assert (Hv : result (verifyInteraction equation h env c) = Returned false).
  { destruct Hwhy as [H|[H|[H|[H|(sig & Hd & Hl & Ht & Hkey)]]]].
    - destruct (verifyInteraction_header_failure equation h env c) as [? ->];
        [by left|done].
    - destruct (verifyInteraction_header_failure equation h env c) as [? ->];
        [by right; left|done].
    - destruct H as (sig & Hd & Hl).
      destruct (verifyInteraction_header_failure equation h env c) as [? ->];
        [right; right; left; by rewrite Hd|done].
    - destruct (verifyInteraction_header_failure equation h env c) as [? ->];
        [by right; right; right|done].
    - rewrite (verifyInteraction_headers_pass equation h env c sig Hd Hl Ht).
      destruct Hkey as [Hbad|(key & Hk & Hlen & Heq)].
      + destruct (hex.DecodeString (configured_key env)) as [key [e|]];
          [done|by destruct Hbad].
      + rewrite Hk. cbn [ed25519.Verify result]. unfold ed25519.verify.
        destruct (decide _) as [Hno|_]; [by destruct Hno|].
        destruct (decide _) as [Hno|_]; [by destruct Hno|].
        by rewrite Heq. }
  by rewrite (Event_unverified equation json_decode fmt_d h env c Hv).
Qed.

End ReceivedFacts.



(** The same request sent as it is: the message ends with the body as
    received, and the signature is accepted. *)
Example plain_request_is_verified :
  result (Sample.verify Sample.env
    (received SampleEncoded.content_decoding SampleEncoded.plain_request))
  = Returned true.
Proof. vm_compute. reflexivity. Qed.

(** C9: with the key unset the reasons for a rejection do not look alike
    from outside: a request without the signature header gets the
    unauthorized response, a request with a signature that does not fit
    its body gets no response, the run panics in [ed25519.Verify]. *)
Theorem unauthorized_not_uniform_when_key_unset :
  signature_header Sample.no_signature_request = EmptyString
  ∧ result (Sample.event Sample.sending Sample.env_unset
              Sample.no_signature_request)
    = Returned Unauthorized
  ∧ result (Sample.verify Sample.env Sample.tampered_request) = Returned false
  ∧ result (Sample.event Sample.sending Sample.env_unset
              Sample.tampered_request)
    = Panicked "ed25519: bad public key length: 0".
Proof. vm_compute. done. Qed.
